(** * IAM command executor (src/iam.cpp): a shallow embedding

    The module of the tunnel client that sends the IAM administration
    requests (list users, list roles, add role, remove role, delete user)
    over an existing connection and prints what the device answered.

    The C++ code talks to three things outside itself: the console streams
    ([std::cin], [std::cout], [std::cerr]), the connection of the Nabto
    client library, and the vendored JSON library.  The console and the
    requests are kept in an explicit [World]; code that may throw runs in a
    small state-and-exception monad [M]. *)

From Equations Require Import Equations.
From Equations.Prop Require Import Logic.
From Stdlib Require Import List String Ascii ZArith Lia Bool Arith.
From Stdlib Require Import DecimalString.
Import ListNotations.
Local Open Scope string_scope.
Set Warnings "-register-all".

(** ** Characters and text *)

(** [std::endl] writes a newline (the flush is not observable here). *)
Definition endl : string := String (ascii_of_nat 10) EmptyString.

(** The escaped quote of the C++ literals. *)
Definition dquote : string := String (ascii_of_nat 34) EmptyString.

(** [operator<<(std::ostream&, int)]: decimal digits, a minus sign for a
    negative number. *)
Definition show_int (n : Z) : string := NilZero.string_of_int (Z.to_int n).

(** The type [int] of the target: 32 bits, two's complement.  Counting past
    the largest [int] is undefined in C++; it wraps here, and the properties
    below are stated for counters that stay below it. *)
Definition int_min : Z := - 2 ^ 31.
Definition int_max : Z := 2 ^ 31 - 1.
Definition wrap_int (n : Z) : Z := (n + 2 ^ 31) mod 2 ^ 32 - 2 ^ 31.

(** [std::isspace] in the classic locale: space, and the control characters
    9 to 13 (tab, newline, vertical tab, form feed, carriage return). *)
Definition isspace (c : ascii) : bool :=
  let n := nat_of_ascii c in
  (n =? 32)%nat || ((9 <=? n)%nat && (n <=? 13)%nat).

(** ** The world outside the module *)

(** A CoAP request as [createCoap] receives it: the method and the path,
    both strings. *)
Record Request : Type := mkRequest {
  req_method : string;
  req_path : string
}.

(** The console and the requests.  The input is a finite sequence of
    characters, after which reading fails. *)
Record World : Type := mkWorld {
  cin : list ascii;        (* characters still to be read from standard input *)
  cin_fail : bool;         (* [std::cin.fail()] *)
  cout : string;           (* everything written to standard output *)
  cerr : string;           (* everything written to standard error *)
  created : list Request;  (* request objects made by [createCoap], oldest first *)
  sent : list Request      (* requests executed on the connection, oldest first *)
}.

Definition put_cout (s : string) (w : World) : World :=
  mkWorld (cin w) (cin_fail w) (cout w ++ s) (cerr w) (created w) (sent w).

Definition put_cerr (s : string) (w : World) : World :=
  mkWorld (cin w) (cin_fail w) (cout w) (cerr w ++ s) (created w) (sent w).

(** The sentry of a formatted input: leading white space is discarded. *)
Fixpoint skipws (l : list ascii) : list ascii :=
  match l with
  | [] => []
  | c :: rest => if isspace c then skipws rest else l
  end.

(** [std::cin >> answer] for a [char]: nothing happens on a stream that has
    already failed; otherwise white space is skipped and one character is
    stored in [answer].  When the input ends first the stream fails and
    [answer] keeps its value. *)
Definition cin_get_char (answer : ascii) (w : World) : ascii * World :=
  if cin_fail w then (answer, w)
  else
    match skipws (cin w) with
    | [] => (answer, mkWorld [] true (cout w) (cerr w) (created w) (sent w))
    | c :: rest => (c, mkWorld rest false (cout w) (cerr w) (created w) (sent w))
    end.

(** What is left to read before the stream fails: the measure of the
    prompt loop. *)
Definition pending (w : World) : nat :=
  if cin_fail w then 0%nat else S (List.length (cin w)).

(** Modelled from the spec: the connection and request layer of the Nabto
    client library, which the module only calls.  A request object is made
    from a method and a path ([createCoap], which cannot fail); executing it
    and waiting for the result either fails with a transport or protocol
    error (an exception, [None] here) or yields a numeric status code and a
    payload of bytes. *)
Record Response : Type := mkResponse {
  status_code : Z;
  payload : list Byte.byte
}.

Record Connection : Type := mkConnection {
  coap_exchange : Request -> option Response
}.

(** Modelled from the spec: the values of the vendored JSON library
    (3rdparty/nlohmann/json.hpp), to which a payload decodes.  Iterating over
    a value visits the elements of an array, the values of an object,
    nothing for null and the value itself otherwise; [get<std::string>]
    throws on anything but a string. *)
Inductive json : Type :=
| j_null
| j_boolean (b : bool)
| j_number (n : Z)
| j_string (s : string)
| j_array (items : list json)
| j_object (members : list (string * json)).

Definition json_elements (j : json) : list json :=
  match j with
  | j_null => []
  | j_array items => items
  | j_object members => map snd members
  | _ => [j]
  end.

(** ** Computations that print, read, send and may throw *)

Inductive Result (A : Type) : Type :=
| Returned (a : A)
| Thrown.
Arguments Returned {A} a.
Arguments Thrown {A}.

Definition M (A : Type) : Type := World -> Result A * World.

Definition ret {A : Type} (a : A) : M A := fun w => (Returned a, w).

Definition bind {A B : Type} (c : M A) (k : A -> M B) : M B :=
  fun w =>
    match c w with
    | (Returned a, w') => k a w'
    | (Thrown, w') => (Thrown, w')
    end.

Definition throw {A : Type} : M A := fun w => (Thrown, w).

(** [try { body } catch (...) { handler }]: the handler runs in the world
    the body left behind. *)
Definition try_catch {A : Type} (body handler : M A) : M A :=
  fun w =>
    match body w with
    | (Returned a, w') => (Returned a, w')
    | (Thrown, w') => handler w'
    end.

(** A step that cannot throw. *)
Definition lift {A : Type} (f : World -> A * World) : M A :=
  fun w => let '(a, w') := f w in (Returned a, w').

Declare Scope iam_scope.
Delimit Scope iam_scope with iam.
Notation "x <- c ;; k" := (bind c (fun x => k))
  (at level 61, c at next level, right associativity) : iam_scope.
Notation "c ;; k" := (bind c (fun _ => k))
  (at level 61, right associativity) : iam_scope.
Local Open Scope iam_scope.

(** [std::cout << s] and [std::cerr << s]. *)
Definition cout_put (s : string) : M unit := fun w => (Returned tt, put_cout s w).
Definition cerr_put (s : string) : M unit := fun w => (Returned tt, put_cerr s w).

(** [connection->createCoap(method, path)]. *)
Record Coap : Type := mkCoap {
  coap_connection : Connection;
  coap_request : Request
}.

Definition createCoap (connection : Connection) (method path : string) : M Coap :=
  fun w =>
    let r := mkRequest method path in
    (Returned (mkCoap connection r),
     mkWorld (cin w) (cin_fail w) (cout w) (cerr w) (created w ++ [r])%list (sent w)).

(** [coap->execute()->waitForResult()]: the request goes out; the call
    throws when the exchange fails. *)
Definition execute (coap : Coap) : M Response :=
  fun w =>
    let r := coap_request coap in
    let w' := mkWorld (cin w) (cin_fail w) (cout w) (cerr w) (created w)
                      (sent w ++ [r])%list in
    match coap_exchange (coap_connection coap) r with
    | Some resp => (Returned resp, w')
    | None => (Thrown, w')
    end.

Definition getResponseStatusCode (resp : Response) : Z := status_code resp.
Definition getResponsePayload (resp : Response) : list Byte.byte := payload resp.

(** [j.get<std::string>()]. *)
Definition get_string (j : json) : M string :=
  match j with
  | j_string s => ret s
  | _ => throw
  end.

(** A range-based [for] over [l] whose body updates a local variable of
    type [S]. *)
Fixpoint for_each {A S : Type} (l : list A) (body : A -> S -> M S) (s : S) : M S :=
  match l with
  | [] => ret s
  | a :: rest => s' <- body a s ;; for_each rest body s'
  end.

Module IAM.

(** The condition of the [do ... while] of [yn_prompt]. *)
Definition ask_again (answer : ascii) (w : World) : bool :=
  negb (cin_fail w) && negb (Ascii.eqb answer "y") && negb (Ascii.eqb answer "n").

(** The loop of [yn_prompt]: print the question, read a character, and go
    round again while the stream is good and the answer is neither [y] nor
    [n].  It returns the last value of [answer]. *)
Equations? yn_loop (message : string) (answer : ascii) (w : World) : ascii * World
  by wf (pending w) lt :=
  yn_loop message answer w
    with inspect (cin_get_char answer (put_cout (message ++ " [y/n]: ") w)) => {
    | exist _ (answer', w') Hget with inspect (ask_again answer' w') => {
      | exist _ true Hagain := yn_loop message answer' w'
      | exist _ false _ := (answer', w') } }.
Proof.
  assert (Hskip : forall l, (List.length (skipws l) <= List.length l)%nat).
  { induction l as [| c rest IH]; cbn [skipws List.length]; [lia |].
    destruct (isspace c); cbn [List.length]; lia. }
  unfold ask_again in Hagain.
  apply andb_prop in Hagain as [Hagain _].
  apply andb_prop in Hagain as [Hgood _].
  apply negb_true_iff in Hgood.
  unfold cin_get_char in Hget. cbn [put_cout cin cin_fail] in Hget.
  unfold pending.
  destruct (cin_fail w) eqn:Hf.
  - inversion Hget; subst. cbn in Hgood. congruence.
  - specialize (Hskip (cin w)).
    destruct (skipws (cin w)) as [| c rest]; inversion Hget; subst;
      cbn [cin cin_fail List.length] in *; [discriminate | lia].
Qed.

(** [answer] starts as the character 0; the result is [answer == 'y']. *)
Definition yn_prompt (message : string) (w : World) : bool * World :=
  let '(answer, w') := yn_loop message zero w in
  (Ascii.eqb answer "y", w').

Definition print_coap_error (path : string) (responseCode : Z) : M unit :=
  cout_put "The CoAP request to " ;;
  cout_put path ;;
  cout_put " returned response code: " ;;
  cout_put (show_int responseCode) ;;
  cout_put endl.

Definition print_error_access_denied : M unit :=
  cout_put ("This is potentially due to insufficient privileges," ++ endl) ;;
  cout_put "check the IAM policies file if you are the owner of this device." ;;
  cout_put endl.

Section Decoder.

(** [json::from_cbor] of the vendored JSON library, which is not part of
    the module: [None] when it throws. *)
Variable from_cbor : list Byte.byte -> option json.

Definition json_from_cbor (cbor : list Byte.byte) : M json :=
  match from_cbor cbor with
  | Some j => ret j
  | None => throw
  end.

(** In the operations below the local [result] (or [status]) is false until
    the last statement of the success case, so the value returned after an
    exception was caught is false: the handler yields it. The operands of a
    chain of [<<] are taken from left to right. *)
Definition list_users (connection : Connection) : M bool :=
  let path := "/iam/users" in
  coap <- createCoap connection "GET" path ;;
  try_catch
    (resp <- execute coap ;;
     let responseCode := getResponseStatusCode resp in
     if (responseCode =? 205)%Z then
       let cbor := getResponsePayload resp in
       cout_put "Listing all users..." ;; cout_put endl ;;
       user_list <- json_from_cbor cbor ;;
       for_each (json_elements user_list)
         (fun user i =>
            cout_put "[" ;;
            cout_put (show_int i) ;;
            cout_put "] UserID: " ;;
            s <- get_string user ;;
            cout_put s ;;
            cout_put endl ;;
            ret (wrap_int (i + 1)))
         1%Z ;;
       ret true
     else if (responseCode =? 403)%Z then
       cout_put "The request to list users (" ;; cout_put path ;; cout_put ")" ;;
       cout_put " was denied." ;; cout_put endl ;;
       print_error_access_denied ;;
       ret false
     else
       print_coap_error path responseCode ;;
       ret false)
    (cerr_put "Cannot get IAM user list" ;; cerr_put endl ;; ret false).

Definition list_roles (connection : Connection) : M bool :=
  let path := "/iam/roles" in
  coap <- createCoap connection "GET" path ;;
  try_catch
    (resp <- execute coap ;;
     let responseCode := getResponseStatusCode resp in
     if (responseCode =? 205)%Z then
       let cbor := getResponsePayload resp in
       cout_put "Listing available roles..." ;; cout_put endl ;;
       role_list <- json_from_cbor cbor ;;
       for_each (json_elements role_list)
         (fun role i =>
            cout_put "[" ;;
            cout_put (show_int i) ;;
            cout_put "]: " ;;
            s <- get_string role ;;
            cout_put s ;;
            cout_put endl ;;
            ret (wrap_int (i + 1)))
         1%Z ;;
       ret true
     else if (responseCode =? 403)%Z then
       cout_put "The request to list roles (" ;; cout_put path ;; cout_put ")" ;;
       cout_put " was denied." ;; cout_put endl ;;
       print_error_access_denied ;;
       ret false
     else
       print_coap_error path responseCode ;;
       ret false)
    (cerr_put "Cannot get IAM role list" ;; cerr_put endl ;; ret false).

End Decoder.

Definition add_role_to_user (connection : Connection) (user role : string) : M bool :=
  let path := "/iam/users/" ++ user ++ "/roles/" ++ role in
  let message :=
    "Add role " ++ dquote ++ role ++ dquote ++ " to user " ++ dquote ++ user ++ dquote ++ "? " in
  yes <- lift (yn_prompt message) ;;
  if yes : bool then
    coap <- createCoap connection "PUT" path ;;
    try_catch
      (resp <- execute coap ;;
       let responseCode := getResponseStatusCode resp in
       if (responseCode =? 201)%Z then
         cout_put "Success." ;; cout_put endl ;;
         ret true
       else if (responseCode =? 403)%Z then
         cout_put "The request was denied." ;; cout_put endl ;;
         print_error_access_denied ;;
         ret false
       else if (responseCode =? 500)%Z then
         cout_put ("The request returned error 500." ++ endl) ;;
         cout_put "Are you sure you typed in the right role id and user id?" ;;
         cout_put endl ;;
         ret false
       else
         print_coap_error path responseCode ;;
         ret false)
      (cerr_put "An unknown error occurred." ;; cerr_put endl ;; ret false)
  else
    cout_put "Action cancelled." ;; cout_put endl ;;
    ret true.

Definition remove_role_from_user (connection : Connection) (user role : string) : M bool :=
  let path := "/iam/users/" ++ user ++ "/roles/" ++ role in
  let message :=
    "Remove role " ++ dquote ++ role ++ dquote ++ " from user " ++ dquote ++ user ++ dquote ++ "? " in
  yes <- lift (yn_prompt message) ;;
  if yes : bool then
    coap <- createCoap connection "DELETE" path ;;
    try_catch
      (resp <- execute coap ;;
       let responseCode := getResponseStatusCode resp in
       if (responseCode =? 202)%Z then
         cout_put "Success." ;; cout_put endl ;;
         ret true
       else if (responseCode =? 403)%Z then
         cout_put "The request to DELETE from " ;;
         cout_put path ;; cout_put " was denied." ;;
         cout_put endl ;;
         print_error_access_denied ;;
         ret false
       else if (responseCode =? 500)%Z then
         cout_put ("The request returned error 500." ++ endl) ;;
         cout_put "Are you sure you typed in the right role id and user id?" ;;
         cout_put endl ;;
         ret false
       else
         ret false)
      (cerr_put "An unknown error occurred." ;; cerr_put endl ;; ret false)
  else
    cout_put "Action cancelled." ;; cout_put endl ;;
    ret true.

Definition delete_user (connection : Connection) (user : string) : M bool :=
  let path := "/iam/users/" ++ user in
  let message := "Delete user " ++ dquote ++ user ++ dquote ++ "? " in
  yes <- lift (yn_prompt message) ;;
  if yes : bool then
    coap <- createCoap connection "DELETE" path ;;
    try_catch
      (resp <- execute coap ;;
       let responseCode := getResponseStatusCode resp in
       if (responseCode =? 202)%Z then
         cout_put "Success." ;; cout_put endl ;;
         ret true
       else if (responseCode =? 403)%Z then
         cout_put "The request to DELETE from" ;;
         cout_put path ;; cout_put "was denied." ;;
         cout_put endl ;;
         print_error_access_denied ;;
         ret false
       else
         print_coap_error path responseCode ;;
         ret false)
      (cerr_put "An unknown error occurred." ;; cerr_put endl ;; ret false)
  else
    cout_put "Action cancelled." ;; cout_put endl ;;
    ret true.

End IAM.

(** ** The five operations as one family *)

Inductive Operation : Type :=
| ListUsers
| ListRoles
| AddRole (user role : string)
| RemoveRole (user role : string)
| DeleteUser (user : string).

Definition run (from_cbor : list Byte.byte -> option json)
    (connection : Connection) (op : Operation) : M bool :=
  match op with
  | ListUsers => IAM.list_users from_cbor connection
  | ListRoles => IAM.list_roles from_cbor connection
  | AddRole user role => IAM.add_role_to_user connection user role
  | RemoveRole user role => IAM.remove_role_from_user connection user role
  | DeleteUser user => IAM.delete_user connection user
  end.

(** The table of resource paths of the specification (section 6): the
    method and the path each operation has to use. *)
Definition contract_method (op : Operation) : string :=
  match op with
  | ListUsers | ListRoles => "GET"
  | AddRole _ _ => "PUT"
  | RemoveRole _ _ | DeleteUser _ => "DELETE"
  end.

Definition contract_path (op : Operation) : string :=
  match op with
  | ListUsers => "/iam/users"
  | ListRoles => "/iam/roles"
  | AddRole user role => "/iam/users/" ++ user ++ "/roles/" ++ role
  | RemoveRole user role => "/iam/users/" ++ user ++ "/roles/" ++ role
  | DeleteUser user => "/iam/users/" ++ user
  end.

Definition contract_request (op : Operation) : Request :=
  mkRequest (contract_method op) (contract_path op).

(** The question a mutating operation asks before it sends anything; the
    two listings ask nothing. *)
Definition question (op : Operation) : option string :=
  match op with
  | ListUsers | ListRoles => None
  | AddRole user role =>
      Some ("Add role " ++ dquote ++ role ++ dquote ++ " to user "
            ++ dquote ++ user ++ dquote ++ "? ")
  | RemoveRole user role =>
      Some ("Remove role " ++ dquote ++ role ++ dquote ++ " from user "
            ++ dquote ++ user ++ dquote ++ "? ")
  | DeleteUser user =>
      Some ("Delete user " ++ dquote ++ user ++ dquote ++ "? ")
  end.

(** [proceeds op w w1]: started in [w], the operation gets to the point of
    making its request, in world [w1]: at once for a listing, after the
    operator answered [y] for the others. *)
Definition proceeds (op : Operation) (w w1 : World) : Prop :=
  match question op with
  | None => w1 = w
  | Some message => IAM.yn_prompt message w = (true, w1)
  end.

(** [declined op w w1]: the operation asked and the prompt returned false,
    leaving world [w1]. *)
Definition declined (op : Operation) (w w1 : World) : Prop :=
  match question op with
  | None => False
  | Some message => IAM.yn_prompt message w = (false, w1)
  end.

(** The requests executed between [w] and a later world [w']. *)
Definition requests_during (w w' : World) : list Request :=
  skipn (List.length (sent w)) (sent w').

(** The texts of the two shared printing helpers. *)
Definition coap_error_text (path : string) (responseCode : Z) : string :=
  "The CoAP request to " ++ path ++ " returned response code: "
  ++ show_int responseCode ++ endl.

Definition access_denied_text : string :=
  "This is potentially due to insufficient privileges," ++ endl
  ++ "check the IAM policies file if you are the owner of this device." ++ endl.

(** A console with the given input and nothing written or sent yet. *)
Definition console (input : string) : World :=
  mkWorld (list_ascii_of_string input) false EmptyString EmptyString [] [].

(** A device that answers every request with the given status code and
    payload, and one on which every exchange fails. *)
Definition answering (code : Z) (bytes : list Byte.byte) : Connection :=
  mkConnection (fun _ => Some (mkResponse code bytes)).

Definition unreachable : Connection := mkConnection (fun _ => None).

(** ** The vocabulary of the properties *)

(** The characters a formatted read can still deliver: none once the
    stream has failed, otherwise the input without its white space. *)
Definition readable (w : World) : list ascii :=
  if cin_fail w then [] else filter (fun c => negb (isspace c)) (cin w).

(** [n] copies of a text, one after the other. *)
Fixpoint copies (n : nat) (text : string) : string :=
  match n with
  | O => EmptyString
  | S k => text ++ copies k text
  end.

(** Neither [y] nor [n]. *)
Definition not_an_answer (c : ascii) : Prop := c <> "y"%char /\ c <> "n"%char.

(** [quiet c]: running [c] neither makes nor sends a request. *)
Definition quiet {A : Type} (c : M A) : Prop :=
  forall w, created (snd (c w)) = created w /\ sent (snd (c w)) = sent w.

(** [returns c]: no exception leaves [c]. *)
Definition returns {A : Type} (c : M A) : Prop :=
  forall w, exists a w', c w = (Returned a, w').

(** The line each operation prints first when the answer is 403. *)
Definition denial_text (op : Operation) : string :=
  match op with
  | ListUsers => "The request to list users (/iam/users) was denied."
  | ListRoles => "The request to list roles (/iam/roles) was denied."
  | AddRole _ _ => "The request was denied."
  | RemoveRole user role =>
      "The request to DELETE from " ++ "/iam/users/" ++ user ++ "/roles/" ++ role
      ++ " was denied."
  | DeleteUser user =>
      "The request to DELETE from" ++ "/iam/users/" ++ user ++ "was denied."
  end.

(** The case labels of the [switch] of each operation. *)
Definition handled_codes (op : Operation) : list Z :=
  match op with
  | ListUsers | ListRoles => [205; 403]
  | AddRole _ _ => [201; 403; 500]
  | RemoveRole _ _ => [202; 403; 500]
  | DeleteUser _ => [202; 403]
  end%Z.

(** The names one per line, each after its index in brackets and a label,
    the indices counting up from [first]. *)
Definition numbered_from (first : nat) (label : string) (names : list string) : string :=
  fold_right append EmptyString
    (map (fun '(k, name) => "[" ++ show_int (Z.of_nat k) ++ label ++ name ++ endl)
         (combine (seq first (List.length names)) names)).

(** The same with the indices 1, 2, 3 and so on. *)
Definition numbered (label : string) (names : list string) : string :=
  numbered_from 1 label names.

(** What the body of the loop of a listing does with a string: it prints
    the entry and counts on. *)
Definition prints_entry (label : string) (body : json -> Z -> M Z) : Prop :=
  forall (name : string) (i : Z) (w : World),
    body (j_string name) i w =
    (Returned (wrap_int (i + 1)),
     put_cout endl (put_cout name (put_cout label
       (put_cout (show_int i) (put_cout "[" w))))).

(** The line each operation writes to the error stream in its handler. *)
Definition fault_line (op : Operation) : string :=
  match op with
  | ListUsers => "Cannot get IAM user list"
  | ListRoles => "Cannot get IAM role list"
  | _ => "An unknown error occurred."
  end.

(** The header and the label of the entries of the two listings. *)
Definition listing_header (op : Operation) : string :=
  match op with
  | ListUsers => "Listing all users..."
  | ListRoles => "Listing available roles..."
  | _ => EmptyString
  end.

Definition listing_label (op : Operation) : string :=
  match op with
  | ListUsers => "] UserID: "
  | ListRoles => "]: "
  | _ => EmptyString
  end.

(** What the body of the loop of a listing does with a value that is not a
    string: the exception leaves it, after the start of the line. *)
Definition throws_on_other (body : json -> Z -> M Z) : Prop :=
  forall (bad : json) (i : Z) (w : World),
    (forall s, bad <> j_string s) ->
    exists w', body bad i w = (Thrown, w') /\
               (exists part, cout w' = cout w ++ part) /\
               cerr w' = cerr w.

(** A decoder that yields the same value for every payload. *)
Definition decodes_to (j : json) : list Byte.byte -> option json := fun _ => Some j.

(** The world in which an operation started in [w] has asked its
    question, if it has one. *)
Definition after_prompt (op : Operation) (w : World) : World :=
  match question op with
  | Some message => snd (IAM.yn_prompt message w)
  | None => w
  end.

(** The status code each operation takes for success. *)
Definition success_code (op : Operation) : Z :=
  match op with
  | ListUsers | ListRoles => 205
  | AddRole _ _ => 201
  | RemoveRole _ _ | DeleteUser _ => 202
  end%Z.

Definition is_string (j : json) : Prop := exists s, j = j_string s.

(** The payload of the answer decodes, and to strings only. *)
Definition lists_strings (from_cbor : list Byte.byte -> option json)
    (resp : Response) : Prop :=
  exists j, from_cbor (payload resp) = Some j /\ Forall is_string (json_elements j).

(** The answer on which an operation that proceeded returns true: it
    carries the success code and, for a listing, a payload of strings. *)
Definition accepted (from_cbor : list Byte.byte -> option json)
    (op : Operation) (resp : Response) : Prop :=
  status_code resp = success_code op /\
  (question op = None -> lists_strings from_cbor resp).

(** [preserves f c]: running [c] leaves the part [f] of the world as it
    was. *)
Definition preserves {A X : Type} (f : World -> X) (c : M A) : Prop :=
  forall w, f (snd (c w)) = f w.

(** The state of standard input. *)
Definition input_state (w : World) : list ascii * bool := (cin w, cin_fail w).

(** The common shape of the five operations once they proceed: make the
    request, execute it and handle the answer under a handler that writes
    one line to the error stream. *)
Definition request_then (connection : Connection) (method path : string)
    (rest : Response -> M bool) (line : string) : M bool :=
  coap <- createCoap connection method path ;;
  try_catch (resp <- execute coap ;; rest resp)
            (cerr_put line ;; cerr_put endl ;; ret false).

(** Operations run one after the other on the same console and
    connection. *)
Fixpoint session (from_cbor : list Byte.byte -> option json)
    (connection : Connection) (ops : list Operation) : M (list bool) :=
  match ops with
  | [] => ret []
  | op :: rest =>
      b <- run from_cbor connection op ;;
      bs <- session from_cbor connection rest ;;
      ret (b :: bs)
  end.

(** [subsequence l1 l2]: [l1] is [l2] with some elements left out. *)
Inductive subsequence {A : Type} : list A -> list A -> Prop :=
| subsequence_nil : subsequence [] []
| subsequence_skip (a : A) (l1 l2 : list A) :
    subsequence l1 l2 -> subsequence l1 (a :: l2)
| subsequence_take (a : A) (l1 l2 : list A) :
    subsequence l1 l2 -> subsequence (a :: l1) (a :: l2).

(** What the proofs need to know of the code that handles the answer of
    operation [op]: it makes no request, leaves the error stream and the
    input alone, returns true exactly on an accepted answer, and, in a
    mutating operation, throws nothing. *)
Definition handles (from_cbor : list Byte.byte -> option json)
    (op : Operation) (rest : Response -> M bool) : Prop :=
  (forall resp, quiet (rest resp)) /\
  (forall resp, preserves cerr (rest resp)) /\
  (forall resp, preserves input_state (rest resp)) /\
  (forall resp w, fst (rest resp w) = Returned true <-> accepted from_cbor op resp) /\
  (question op <> None -> forall resp, returns (rest resp)).

(** * Properties *)

(** ** Text *)

Lemma append_assoc (a b c : string) : (a ++ b) ++ c = a ++ (b ++ c).
Proof.
  induction a as [| ch a IH]; simpl; [reflexivity |].
  rewrite IH. reflexivity.
Qed.

Lemma append_nil_r (a : string) : a ++ EmptyString = a.
Proof.
  induction a as [| ch a IH]; simpl; [reflexivity |].
  rewrite IH. reflexivity.
Qed.

(** ** The confirmation prompt *)

Lemma yn_loop_unfold (message : string) (answer : ascii) (w : World) :
  IAM.yn_loop message answer w =
  let '(answer', w') := cin_get_char answer (put_cout (message ++ " [y/n]: ") w) in
  if IAM.ask_again answer' w' then IAM.yn_loop message answer' w' else (answer', w').
Proof.
  remember (let '(answer', w') :=
              cin_get_char answer (put_cout (message ++ " [y/n]: ") w) in
            if IAM.ask_again answer' w' then IAM.yn_loop message answer' w'
            else (answer', w')) as rhs eqn:Hrhs.
  simp yn_loop.
  destruct (inspect (cin_get_char answer (put_cout (message ++ " [y/n]: ") w)))
    as [[answer' w'] Hget].
  rewrite Hget in Hrhs.
  simp yn_loop.
  destruct (inspect (IAM.ask_again answer' w')) as [[|] Hagain];
    rewrite Hagain in Hrhs; subst rhs; simp yn_loop; reflexivity.
Qed.

Lemma skipws_filter (l : list ascii) :
  match filter (fun c => negb (isspace c)) l with
  | [] => skipws l = []
  | c :: tl =>
      exists rest, skipws l = c :: rest /\
                   filter (fun c => negb (isspace c)) rest = tl
  end.
Proof.
  induction l as [| a l IH]; cbn [filter skipws]; [reflexivity |].
  destruct (isspace a) eqn:Ha; cbn [negb].
  - exact IH.
  - exists l. split; reflexivity.
Qed.

Lemma cin_get_char_end (a : ascii) (w : World) :
  readable w = [] ->
  exists w', cin_get_char a w = (a, w') /\ cin_fail w' = true /\
             cout w' = cout w /\ cerr w' = cerr w /\
             created w' = created w /\ sent w' = sent w.
Proof.
  unfold readable, cin_get_char. intros Hr.
  destruct (cin_fail w) eqn:Hf.
  - exists w. repeat split; assumption || reflexivity.
  - pose proof (skipws_filter (cin w)) as Hs. rewrite Hr in Hs. rewrite Hs.
    eexists. split; [reflexivity |]. simpl. repeat split; reflexivity.
Qed.

Lemma cin_get_char_next (a c : ascii) (tl : list ascii) (w : World) :
  readable w = c :: tl ->
  exists w', cin_get_char a w = (c, w') /\ cin_fail w' = false /\
             readable w' = tl /\
             cout w' = cout w /\ cerr w' = cerr w /\
             created w' = created w /\ sent w' = sent w.
Proof.
  unfold readable, cin_get_char. intros Hr.
  destruct (cin_fail w) eqn:Hf; [discriminate |].
  pose proof (skipws_filter (cin w)) as Hs. rewrite Hr in Hs.
  destruct Hs as [rest [Hs Hrest]]. rewrite Hs.
  eexists. split; [reflexivity |]. simpl. repeat split; try reflexivity.
  exact Hrest.
Qed.

Lemma ask_again_false_iff (c : ascii) (w : World) :
  cin_fail w = false ->
  (IAM.ask_again c w = false <-> c = "y"%char \/ c = "n"%char).
Proof.
  intros Hf. unfold IAM.ask_again. rewrite Hf. simpl.
  destruct (Ascii.eqb_spec c "y") as [Hy | Hy];
    destruct (Ascii.eqb_spec c "n") as [Hn | Hn]; simpl; split; intros H;
    try discriminate; try reflexivity; auto.
  destruct H; contradiction.
Qed.

Lemma last_cons_default {A : Type} (l : list A) (c d : A) :
  last (c :: l) d = last l c.
Proof.
  revert c d. induction l as [| a l IH]; intros c d; [reflexivity |].
  change (last (c :: a :: l) d) with (last (a :: l) d).
  rewrite (IH a d), (IH a c). reflexivity.
Qed.

(** The run of the loop on the readable input [tokens]: the characters
    before the first [y] or [n] are each read and rejected, with one prompt
    for each and one more for the read that ends the loop. *)
Lemma yn_loop_run (message : string) (tokens : list ascii) :
  forall (answer : ascii) (w : World),
    readable w = tokens ->
    exists rejected rest answer' w',
      tokens = (rejected ++ rest)%list /\
      Forall not_an_answer rejected /\
      IAM.yn_loop message answer w = (answer', w') /\
      cout w' = cout w ++ copies (S (List.length rejected)) (message ++ " [y/n]: ") /\
      cerr w' = cerr w /\ created w' = created w /\ sent w' = sent w /\
      match rest with
      | [] => cin_fail w' = true /\ answer' = last rejected answer
      | c :: tl => (c = "y"%char \/ c = "n"%char) /\ answer' = c /\
                   cin_fail w' = false /\ readable w' = tl
      end.
Proof.
  induction tokens as [| c tl IH]; intros answer w Hr.
  - destruct (cin_get_char_end answer (put_cout (message ++ " [y/n]: ") w))
      as [w' [Hget [Hf [Ho [He [Hc Hs]]]]]]; [exact Hr |].
    exists [], [], answer, w'.
    rewrite yn_loop_unfold, Hget.
    unfold IAM.ask_again. rewrite Hf. simpl.
    rewrite Ho. simpl. rewrite append_nil_r.
    repeat split; auto.
  - destruct (cin_get_char_next answer c tl (put_cout (message ++ " [y/n]: ") w))
      as [w1 [Hget [Hf [Hr1 [Ho [He [Hc Hs]]]]]]]; [exact Hr |].
    destruct (IAM.ask_again c w1) eqn:Hagain.
    + destruct (IH c w1 Hr1)
        as [rejected [rest [answer' [w' [Hsplit [Hrej [Hrun [Ho' [He' [Hc' [Hs' Hend]]]]]]]]]]].
      exists (c :: rejected), rest, answer', w'.
      rewrite yn_loop_unfold, Hget, Hagain.
      assert (Hc_no : not_an_answer c).
      { split; intros ->.
        - rewrite (proj2 (ask_again_false_iff _ w1 Hf) (or_introl eq_refl)) in Hagain.
          discriminate.
        - rewrite (proj2 (ask_again_false_iff _ w1 Hf) (or_intror eq_refl)) in Hagain.
          discriminate. }
      simpl in Ho, He, Hc, Hs.
      split; [simpl; congruence |].
      split; [constructor; assumption |].
      split; [exact Hrun |].
      split; [rewrite Ho', Ho; simpl; rewrite !append_assoc; reflexivity |].
      split; [congruence |].
      split; [congruence |].
      split; [congruence |].
      destruct rest as [| c' tl']; [| exact Hend].
      destruct Hend as [Hfail Hlast]. split; [exact Hfail |].
      rewrite Hlast. symmetry. apply last_cons_default.
    + exists [], (c :: tl), c, w1.
      rewrite yn_loop_unfold, Hget, Hagain.
      apply (ask_again_false_iff _ w1 Hf) in Hagain.
      rewrite Ho. simpl. rewrite append_nil_r.
      repeat split; auto.
Qed.

Lemma last_Forall {A : Type} (P : A -> Prop) (l : list A) (d : A) :
  Forall P l -> P d -> P (last l d).
Proof.
  intros Hl Hd. induction Hl as [| a l Ha Hl IH]; [exact Hd |].
  rewrite last_cons_default.
  destruct l as [| a' l']; [exact Ha |].
  rewrite <- (last_cons_default (a' :: l') a d).
  change (last (a :: a' :: l') d) with (last (a' :: l') d).
  exact IH.
Qed.

(** The prompt leaves the error stream and the requests alone. *)
Lemma yn_prompt_frame (message : string) (w w' : World) (b : bool) :
  IAM.yn_prompt message w = (b, w') ->
  cerr w' = cerr w /\ created w' = created w /\ sent w' = sent w.
Proof.
  unfold IAM.yn_prompt. intros Hrun.
  destruct (yn_loop_run message (readable w) zero w eq_refl)
    as [rejected [rest [answer' [w1 [_ [_ [Hloop [_ [He [Hc [Hs _]]]]]]]]]]].
  rewrite Hloop in Hrun. inversion Hrun; subst. auto.
Qed.

(** C8. [yn_prompt] shows the message followed by [ [y/n]: ] and reads one
    character, again and again, until the character read is [y] or [n] or
    the input fails.  With the readable input split into the characters
    that are rejected and the rest, which is empty or starts with the first
    [y] or [n]: one prompt is shown for each rejected character and one for
    the read that ends the loop; the result is true exactly when the rest
    starts with [y]; the stream has failed exactly when the rest is empty,
    and then the result is false; the characters consumed are the rejected
    ones and the answer. *)
Theorem yn_prompt_dialogue (message : string) (w : World) :
  exists (rejected rest : list ascii) (b : bool) (w' : World),
    readable w = (rejected ++ rest)%list /\
    Forall not_an_answer rejected /\
    (rest = [] \/
     exists c tl, rest = c :: tl /\ (c = "y"%char \/ c = "n"%char)) /\
    IAM.yn_prompt message w = (b, w') /\
    cout w' = cout w ++ copies (S (List.length rejected)) (message ++ " [y/n]: ") /\
    (b = true <-> exists tl, rest = "y"%char :: tl) /\
    (cin_fail w' = true <-> rest = []) /\
    (cin_fail w' = true -> b = false) /\
    readable w' = tl rest.
Proof.
  destruct (yn_loop_run message (readable w) zero w eq_refl)
    as [rejected [rest [answer' [w' [Hsplit [Hrej [Hloop [Ho [_ [_ [_ Hend]]]]]]]]]]].
  exists rejected, rest, (Ascii.eqb answer' "y"), w'.
  split; [exact Hsplit |].
  split; [exact Hrej |].
  unfold IAM.yn_prompt. rewrite Hloop.
  destruct rest as [| c tl].
  - destruct Hend as [Hfail Hlast].
    assert (Hno : not_an_answer answer').
    { rewrite Hlast. apply last_Forall; [exact Hrej |].
      split; discriminate. }
    destruct Hno as [Hny _].
    apply Ascii.eqb_neq in Hny. rewrite Hny.
    split; [left; reflexivity |].
    split; [reflexivity |].
    split; [exact Ho |].
    split; [split; [discriminate | intros [tl Htl]; discriminate] |].
    split; [split; auto |].
    split; [reflexivity |].
    unfold readable. rewrite Hfail. reflexivity.
  - destruct Hend as [Hyn [Hans [Hgood Hrest]]]. subst answer'.
    split; [right; exists c, tl; auto |].
    split; [reflexivity |].
    split; [exact Ho |].
    split.
    { split.
      - intros Hy. apply Ascii.eqb_eq in Hy. subst c. exists tl. reflexivity.
      - intros [tl' Htl]. inversion Htl; subst. apply Ascii.eqb_refl. }
    split; [split; [congruence | discriminate] |].
    split; [congruence |].
    exact Hrest.
Qed.

(** ** Stepping through an operation *)

Ltac step_op :=
  cbv beta iota zeta delta
    [run IAM.list_users IAM.list_roles IAM.add_role_to_user
     IAM.remove_role_from_user IAM.delete_user
     IAM.print_coap_error IAM.print_error_access_denied IAM.json_from_cbor
     bind ret lift throw try_catch createCoap execute cout_put cerr_put
     getResponseStatusCode getResponsePayload get_string
     coap_request coap_connection].

Ltac text_eq := rewrite ?append_assoc; reflexivity.

(** ** Declining *)

(** C2. When the operator declines, a mutating operation prints
    [Action cancelled.], returns true, and neither makes nor sends a
    request. *)
Theorem declined_is_cancelled (connection : Connection) (user role : string)
    (w w1 : World) :
  (IAM.yn_prompt ("Add role " ++ dquote ++ role ++ dquote ++ " to user "
                  ++ dquote ++ user ++ dquote ++ "? ") w = (false, w1) ->
   exists w', IAM.add_role_to_user connection user role w = (Returned true, w') /\
              cout w' = cout w1 ++ "Action cancelled." ++ endl /\
              created w' = created w /\ sent w' = sent w) /\
  (IAM.yn_prompt ("Remove role " ++ dquote ++ role ++ dquote ++ " from user "
                  ++ dquote ++ user ++ dquote ++ "? ") w = (false, w1) ->
   exists w', IAM.remove_role_from_user connection user role w = (Returned true, w') /\
              cout w' = cout w1 ++ "Action cancelled." ++ endl /\
              created w' = created w /\ sent w' = sent w) /\
  (IAM.yn_prompt ("Delete user " ++ dquote ++ user ++ dquote ++ "? ") w = (false, w1) ->
   exists w', IAM.delete_user connection user w = (Returned true, w') /\
              cout w' = cout w1 ++ "Action cancelled." ++ endl /\
              created w' = created w /\ sent w' = sent w).
Proof.
  repeat split; intros Hno;
    destruct (yn_prompt_frame _ _ _ _ Hno) as [_ [Hc Hs]];
    step_op; rewrite Hno; step_op;
    (eexists; split; [reflexivity |]); simpl;
    (split; [text_eq |]); split; assumption.
Qed.

(** ** Code that makes no request, and code that returns *)

Create HintDb quiet.

Lemma quiet_ret {A : Type} (a : A) : quiet (ret a).
Proof. intros w. split; reflexivity. Qed.

Lemma quiet_throw {A : Type} : quiet (@throw A).
Proof. intros w. split; reflexivity. Qed.

Lemma quiet_cout_put (s : string) : quiet (cout_put s).
Proof. intros w. split; reflexivity. Qed.

Lemma quiet_cerr_put (s : string) : quiet (cerr_put s).
Proof. intros w. split; reflexivity. Qed.

Lemma quiet_bind {A B : Type} (c : M A) (k : A -> M B) :
  quiet c -> (forall a, quiet (k a)) -> quiet (bind c k).
Proof.
  intros Hc Hk w. unfold bind.
  destruct (Hc w) as [Hc1 Hc2].
  destruct (c w) as [[a |] w1]; simpl in *.
  - destruct (Hk a w1) as [Hk1 Hk2]. split; congruence.
  - split; assumption.
Qed.

Lemma quiet_try_catch {A : Type} (body handler : M A) :
  quiet body -> quiet handler -> quiet (try_catch body handler).
Proof.
  intros Hb Hh w. unfold try_catch.
  destruct (Hb w) as [Hb1 Hb2].
  destruct (body w) as [[a |] w1]; simpl in *.
  - split; assumption.
  - destruct (Hh w1) as [Hh1 Hh2]. split; congruence.
Qed.

Lemma quiet_if {A : Type} (b : bool) (c1 c2 : M A) :
  quiet c1 -> quiet c2 -> quiet (if b then c1 else c2).
Proof. destruct b; auto. Qed.

Lemma quiet_get_string (j : json) : quiet (get_string j).
Proof. destruct j; intros w; split; reflexivity. Qed.

Lemma quiet_json_from_cbor (from_cbor : list Byte.byte -> option json)
    (cbor : list Byte.byte) :
  quiet (IAM.json_from_cbor from_cbor cbor).
Proof.
  unfold IAM.json_from_cbor. destruct (from_cbor cbor); intros w; split; reflexivity.
Qed.

#[local] Hint Resolve quiet_ret quiet_throw quiet_cout_put quiet_cerr_put
  quiet_bind quiet_try_catch quiet_if quiet_get_string quiet_json_from_cbor : quiet.

Lemma quiet_for_each {A S : Type} (l : list A) (body : A -> S -> M S) :
  (forall a s, quiet (body a s)) -> forall s, quiet (for_each l body s).
Proof.
  intros Hbody. induction l as [| a l IH]; intros s; simpl; auto with quiet.
Qed.

Lemma quiet_print_coap_error (path : string) (responseCode : Z) :
  quiet (IAM.print_coap_error path responseCode).
Proof. unfold IAM.print_coap_error. auto 10 with quiet. Qed.

Lemma quiet_print_error_access_denied : quiet IAM.print_error_access_denied.
Proof. unfold IAM.print_error_access_denied. auto 10 with quiet. Qed.

#[local] Hint Resolve quiet_for_each quiet_print_coap_error
  quiet_print_error_access_denied : quiet.

Lemma returns_ret {A : Type} (a : A) : returns (ret a).
Proof. intros w. exists a, w. reflexivity. Qed.

Lemma returns_cout_put (s : string) : returns (cout_put s).
Proof. intros w. eexists; eexists. reflexivity. Qed.

Lemma returns_cerr_put (s : string) : returns (cerr_put s).
Proof. intros w. eexists; eexists. reflexivity. Qed.

Lemma returns_bind {A B : Type} (c : M A) (k : A -> M B) :
  returns c -> (forall a, returns (k a)) -> returns (bind c k).
Proof.
  intros Hc Hk w. unfold bind.
  destruct (Hc w) as [a [w1 Hrun]]. rewrite Hrun. apply Hk.
Qed.

Lemma returns_try_catch {A : Type} (body handler : M A) :
  returns handler -> returns (try_catch body handler).
Proof.
  intros Hh w. unfold try_catch.
  destruct (body w) as [[a |] w1].
  - exists a, w1. reflexivity.
  - apply Hh.
Qed.

(** The request and what follows it: the request object is made, the
    request is executed once, and whatever the device answers the code after
    it, which makes no request of its own, ends in a return. *)
Lemma request_phase {A : Type} (connection : Connection) (method path : string)
    (rest : Response -> M A) (handler : M A) (w : World) :
  (forall resp, quiet (rest resp)) -> quiet handler -> returns handler ->
  exists a w',
    (coap <- createCoap connection method path ;;
     try_catch (resp <- execute coap ;; rest resp) handler) w = (Returned a, w') /\
    created w' = (created w ++ [mkRequest method path])%list /\
    sent w' = (sent w ++ [mkRequest method path])%list.
Proof.
  intros Hrest Hquiet Hret.
  unfold bind at 1. unfold createCoap. unfold try_catch, bind, execute. simpl.
  remember (mkWorld (cin w) (cin_fail w) (cout w) (cerr w)
              (created w ++ [mkRequest method path])%list
              (sent w ++ [mkRequest method path])%list) as w2 eqn:Hw2.
  assert (Hc2 : created w2 = (created w ++ [mkRequest method path])%list)
    by (subst w2; reflexivity).
  assert (Hs2 : sent w2 = (sent w ++ [mkRequest method path])%list)
    by (subst w2; reflexivity).
  clear Hw2.
  destruct (coap_exchange connection (mkRequest method path)) as [resp |].
  - destruct (Hrest resp w2) as [Hc Hs].
    destruct (rest resp w2) as [[a |] w3] eqn:Hrun; simpl in Hc, Hs.
    + exists a, w3. split; [reflexivity |]. split; congruence.
    + destruct (Hret w3) as [a [w4 Hh]]. destruct (Hquiet w3) as [Hc' Hs'].
      rewrite Hh in *. simpl in Hc', Hs'.
      exists a, w4. split; [reflexivity |]. split; congruence.
  - destruct (Hret w2) as [a [w4 Hh]]. destruct (Hquiet w2) as [Hc' Hs'].
    rewrite Hh in *. simpl in Hc', Hs'.
    exists a, w4. split; [reflexivity |]. split; congruence.
Qed.

Ltac show_quiet :=
  repeat (intros; cbv beta;
          first [ apply quiet_ret | apply quiet_throw | apply quiet_cout_put
                | apply quiet_cerr_put | apply quiet_get_string
                | apply quiet_json_from_cbor | apply quiet_print_coap_error
                | apply quiet_print_error_access_denied
                | apply quiet_for_each | apply quiet_if | apply quiet_bind
                | apply quiet_try_catch ]).

Ltac show_returns :=
  repeat (intros; cbv beta;
          first [ apply returns_ret | apply returns_cout_put
                | apply returns_cerr_put | apply returns_bind
                | apply returns_try_catch ]).

(** An operation that proceeds makes and executes the request of the
    contract, and returns. *)
Lemma run_proceeds (from_cbor : list Byte.byte -> option json)
    (connection : Connection) (op : Operation) (w w1 : World) :
  proceeds op w w1 ->
  exists b w',
    run from_cbor connection op w = (Returned b, w') /\
    created w' = (created w ++ [contract_request op])%list /\
    sent w' = (sent w ++ [contract_request op])%list.
Proof.
  unfold proceeds, contract_request.
  destruct op as [| | user role | user role | user];
    cbv beta iota delta [question contract_method contract_path run]; intros Hgo.
  - subst w1. unfold IAM.list_users. cbv zeta.
    apply request_phase; [show_quiet | show_quiet | show_returns].
  - subst w1. unfold IAM.list_roles. cbv zeta.
    apply request_phase; [show_quiet | show_quiet | show_returns].
  - destruct (yn_prompt_frame _ _ _ _ Hgo) as [_ [Hc Hs]].
    unfold IAM.add_role_to_user. cbv zeta.
    unfold bind at 1, lift. rewrite Hgo. rewrite <- Hc, <- Hs.
    apply request_phase; [show_quiet | show_quiet | show_returns].
  - destruct (yn_prompt_frame _ _ _ _ Hgo) as [_ [Hc Hs]].
    unfold IAM.remove_role_from_user. cbv zeta.
    unfold bind at 1, lift. rewrite Hgo. rewrite <- Hc, <- Hs.
    apply request_phase; [show_quiet | show_quiet | show_returns].
  - destruct (yn_prompt_frame _ _ _ _ Hgo) as [_ [Hc Hs]].
    unfold IAM.delete_user. cbv zeta.
    unfold bind at 1, lift. rewrite Hgo. rewrite <- Hc, <- Hs.
    apply request_phase; [show_quiet | show_quiet | show_returns].
Qed.

Lemma run_declined (from_cbor : list Byte.byte -> option json)
    (connection : Connection) (op : Operation) (w w1 : World) :
  declined op w w1 ->
  exists w',
    run from_cbor connection op w = (Returned true, w') /\
    cout w' = cout w1 ++ "Action cancelled." ++ endl /\
    created w' = created w /\ sent w' = sent w.
Proof.
  unfold declined.
  destruct op as [| | user role | user role | user];
    cbv beta iota delta [question run]; intros Hno; try contradiction;
    destruct (yn_prompt_frame _ _ _ _ Hno) as [_ [Hc Hs]];
    step_op; rewrite Hno; step_op;
    (eexists; split; [reflexivity |]); simpl;
    (split; [text_eq |]); split; assumption.
Qed.

Lemma requests_during_app (w w' : World) (l : list Request) :
  sent w' = (sent w ++ l)%list -> requests_during w w' = l.
Proof.
  intros Hs. unfold requests_during. rewrite Hs.
  rewrite skipn_app, Nat.sub_diag, skipn_all. reflexivity.
Qed.

(** The status code of the answer decides the branch of the [switch]. *)
Ltac settle_codes :=
  cbn [status_code payload];
  repeat match goal with
         | H : ?c <> ?k |- context [Z.eqb ?c ?k] =>
             rewrite (proj2 (Z.eqb_neq c k) H)
         | |- context [Z.eqb ?a ?b] =>
             let v := eval vm_compute in (Z.eqb a b) in
             first [constr_eq v true | constr_eq v false];
             change (Z.eqb a b) with v
         end;
  cbv beta iota.

Ltac same_text :=
  cbn [cout cerr created sent cin cin_fail put_cout put_cerr];
  repeat progress (cbn [append]; rewrite ?append_assoc);
  reflexivity.

(** C4. An operation whose request is answered with status 403 returns
    false and prints, after its denial message, the guidance about the IAM
    policies file of the device. *)
Theorem denied_prints_guidance (from_cbor : list Byte.byte -> option json)
    (connection : Connection) (op : Operation) (resp : Response) (w w1 : World) :
  proceeds op w w1 ->
  coap_exchange connection (contract_request op) = Some resp ->
  status_code resp = 403%Z ->
  exists w',
    run from_cbor connection op w = (Returned false, w') /\
    cout w' = cout w1 ++ denial_text op ++ endl ++ access_denied_text /\
    cerr w' = cerr w1.
Proof.
  unfold proceeds, contract_request.
  destruct resp as [code bytes]. simpl. intros Hgo Hex ->.
  destruct op as [| | user role | user role | user];
    cbv beta iota delta [question contract_method contract_path run denial_text
                         access_denied_text] in *;
    [subst w1; step_op | subst w1; step_op | step_op; rewrite Hgo; step_op ..];
    rewrite Hex; step_op; settle_codes;
    (eexists; split; [reflexivity |]); split; same_text.
Qed.

(** C3. When the answer to a confirmed [remove_role_from_user] carries a
    status code other than 202, 403 and 500, nothing is printed and the
    result is false; each of the other four operations prints the generic
    status line for a code its [switch] does not name. *)
Theorem remove_role_is_silent_on_unknown_status
    (from_cbor : list Byte.byte -> option json)
    (connection : Connection) (op : Operation) (resp : Response) (w w1 : World) :
  proceeds op w w1 ->
  coap_exchange connection (contract_request op) = Some resp ->
  ~ In (status_code resp) (handled_codes op) ->
  exists w',
    run from_cbor connection op w = (Returned false, w') /\
    cerr w' = cerr w1 /\
    cout w' = match op with
              | RemoveRole _ _ => cout w1
              | _ => cout w1 ++ coap_error_text (contract_path op) (status_code resp)
              end.
Proof.
  unfold proceeds, contract_request.
  destruct resp as [code bytes]. cbn [status_code]. intros Hgo Hex Hcode.
  destruct op as [| | user role | user role | user];
    cbv beta iota delta [question contract_method contract_path run
                         handled_codes coap_error_text] in *;
    cbn [In] in Hcode;
    repeat match type of Hcode with
           | ~ (_ \/ _) => apply Decidable.not_or in Hcode;
                           let H := fresh "Hne" in destruct Hcode as [H Hcode]
           end;
    repeat match goal with
           | H : ?k <> code |- _ => apply not_eq_sym in H
           end;
    [subst w1; step_op | subst w1; step_op | step_op; rewrite Hgo; step_op ..];
    rewrite Hex; step_op; settle_codes;
    (eexists; split; [reflexivity |]); split; same_text.
Qed.

(** C6. When the answer to a confirmed [delete_user] carries a status code
    other than 202 and 403, the result is false and the generic line with
    the path of the request and the code is printed. *)
Theorem delete_user_reports_unknown_status (connection : Connection)
    (user : string) (code : Z) (bytes : list Byte.byte) (w w1 : World) :
  IAM.yn_prompt ("Delete user " ++ dquote ++ user ++ dquote ++ "? ") w = (true, w1) ->
  coap_exchange connection (mkRequest "DELETE" ("/iam/users/" ++ user))
    = Some (mkResponse code bytes) ->
  code <> 202%Z -> code <> 403%Z ->
  exists w',
    IAM.delete_user connection user w = (Returned false, w') /\
    cout w' = cout w1 ++ "The CoAP request to " ++ ("/iam/users/" ++ user)
              ++ " returned response code: " ++ show_int code ++ endl /\
    cerr w' = cerr w1.
Proof.
  intros Hgo Hex Hne1 Hne2.
  step_op. rewrite Hgo. step_op. rewrite Hex. step_op. settle_codes.
  eexists. split; [reflexivity |]. split; same_text.
Qed.

(** ** Listings *)

Lemma wrap_int_small (n : Z) :
  (int_min <= n <= int_max)%Z -> wrap_int n = n.
Proof.
  unfold int_min, int_max, wrap_int. intros Hn.
  rewrite Z.mod_small; lia.
Qed.

Lemma for_each_cons {A S : Type} (a : A) (l : list A) (body : A -> S -> M S)
    (s : S) (w : World) :
  for_each (a :: l) body s w =
  match body a s w with
  | (Returned s', w1) => for_each l body s' w1
  | (Thrown, w1) => (Thrown, w1)
  end.
Proof. reflexivity. Qed.

(** The loop of a listing over strings only: every entry is printed with
    its index and no exception is thrown. *)
Lemma for_each_strings (label : string) (body : json -> Z -> M Z)
    (names : list string) :
  prints_entry label body ->
  forall (k : nat) (w : World),
    (Z.of_nat k + Z.of_nat (List.length names) <= int_max)%Z ->
    exists w',
      for_each (map j_string names) body (Z.of_nat k) w
      = (Returned (Z.of_nat (k + List.length names)), w') /\
      cout w' = cout w ++ numbered_from k label names /\
      cerr w' = cerr w /\ created w' = created w /\ sent w' = sent w.
Proof.
  intros Hbody.
  induction names as [| name names IH]; intros k w Hfit.
  - exists w. cbn [map for_each List.length]. unfold ret, numbered_from.
    rewrite Nat.add_0_r. cbn. rewrite append_nil_r. auto.
  - cbn [List.length] in Hfit.
    destruct (IH (S k)
                (put_cout endl (put_cout name (put_cout label
                   (put_cout (show_int (Z.of_nat k)) (put_cout "[" w))))))
      as [w' [Hrun [Ho [He [Hc Hs]]]]]; [lia |].
    exists w'.
    cbn [map]. rewrite for_each_cons, Hbody.
    rewrite wrap_int_small by (unfold int_min, int_max in *; lia).
    replace (Z.of_nat k + 1)%Z with (Z.of_nat (S k)) by lia.
    rewrite Hrun.
    split; [f_equal; f_equal; cbn [List.length]; lia |].
    split; [| auto].
    rewrite Ho. unfold numbered_from.
    cbn [List.length seq combine map fold_right].
    same_text.
Qed.

(** C5. When the device answers [list_users] with status 205 and a payload
    that decodes to a sequence of strings, the header line is printed, then
    each string in order with its index counted from 1, and the result is
    true.  (The list is shorter than the largest [int].) *)
Theorem list_users_prints_numbered (from_cbor : list Byte.byte -> option json)
    (connection : Connection) (resp : Response) (names : list string) (w : World) :
  coap_exchange connection (mkRequest "GET" "/iam/users") = Some resp ->
  status_code resp = 205%Z ->
  from_cbor (payload resp) = Some (j_array (map j_string names)) ->
  (Z.of_nat (List.length names) < int_max)%Z ->
  exists w',
    IAM.list_users from_cbor connection w = (Returned true, w') /\
    cout w' = cout w ++ "Listing all users..." ++ endl
              ++ numbered "] UserID: " names /\
    cerr w' = cerr w.
Proof.
  destruct resp as [code bytes]. cbn [status_code payload].
  intros Hex -> Hdec Hfit.
  step_op. rewrite Hex. step_op. settle_codes. rewrite Hdec.
  cbn [json_elements].
  match goal with
  | |- context [for_each _ ?body _ ?w0] =>
      destruct (for_each_strings "] UserID: " body names) with (k := 1%nat) (w := w0)
        as [w' [Hrun [Ho [He _]]]];
        [intros name i w2; reflexivity | change (Z.of_nat 1) with 1%Z; lia |]
  end.
  change (Z.of_nat 1) with 1%Z in Hrun. rewrite Hrun.
  exists w'. split; [reflexivity |].
  rewrite Ho, He. unfold numbered. split; same_text.
Qed.

(** ** Requests *)

Lemma yn_prompt_total (message : string) (w : World) :
  exists b w1, IAM.yn_prompt message w = (b, w1).
Proof. destruct (IAM.yn_prompt message w) as [b w1]. exists b, w1. reflexivity. Qed.

(** Every operation either proceeds or is declined. *)
Lemma proceeds_or_declined (op : Operation) (w : World) :
  exists w1, proceeds op w w1 \/ declined op w w1.
Proof.
  unfold proceeds, declined.
  destruct (question op) as [message |].
  - destruct (yn_prompt_total message w) as [[|] [w1 Hrun]];
      exists w1; [left | right]; exact Hrun.
  - exists w. left. reflexivity.
Qed.

(** C1, amended. An operation that proceeds (a listing always, the others
    once the operator has confirmed) sends exactly one request, with the
    method and the path of the contract, and it is the request object it
    made.  An operation the operator declines returns without sending a
    request or making a request object. *)
Theorem request_follows_contract (from_cbor : list Byte.byte -> option json)
    (connection : Connection) (op : Operation) (w w1 : World) :
  (proceeds op w w1 ->
   exists b w',
     run from_cbor connection op w = (Returned b, w') /\
     requests_during w w' = [mkRequest (contract_method op) (contract_path op)] /\
     created w' = (created w ++ [mkRequest (contract_method op) (contract_path op)])%list) /\
  (declined op w w1 ->
   exists w',
     run from_cbor connection op w = (Returned true, w') /\
     requests_during w w' = [] /\
     created w' = created w).
Proof.
  split.
  - intros Hgo.
    destruct (run_proceeds from_cbor connection op w w1 Hgo) as [b [w' [Hrun [Hc Hs]]]].
    exists b, w'. split; [exact Hrun |]. split; [| exact Hc].
    apply requests_during_app. exact Hs.
  - intros Hno.
    destruct (run_declined from_cbor connection op w w1 Hno) as [w' [Hrun [_ [Hc Hs]]]].
    exists w'. split; [exact Hrun |]. split; [| exact Hc].
    apply requests_during_app. rewrite app_nil_r. exact Hs.
Qed.

(** C9, amended. An invocation performs at most one request: exactly one
    when the operation proceeds, whatever the device answers, and none when
    the operator declines. *)
Theorem at_most_one_request (from_cbor : list Byte.byte -> option json)
    (connection : Connection) (op : Operation) (w : World) :
  exists b w',
    run from_cbor connection op w = (Returned b, w') /\
    (List.length (requests_during w w') <= 1)%nat /\
    (forall w1, proceeds op w w1 -> List.length (requests_during w w') = 1%nat) /\
    (forall w1, declined op w w1 -> List.length (requests_during w w') = 0%nat).
Proof.
  assert (Hexcl : forall w1 w2, proceeds op w w1 -> declined op w w2 -> False).
  { unfold proceeds, declined. intros w1 w2.
    destruct (question op); [congruence | auto]. }
  destruct (proceeds_or_declined op w) as [w1 [Hgo | Hno]].
  - destruct (run_proceeds from_cbor connection op w w1 Hgo) as [b [w' [Hrun [_ Hs]]]].
    exists b, w'. rewrite (requests_during_app _ _ _ Hs). cbn [List.length].
    split; [exact Hrun |]. split; [lia |]. split; [reflexivity |].
    intros w2 Hno. destruct (Hexcl w1 w2 Hgo Hno).
  - destruct (run_declined from_cbor connection op w w1 Hno) as [w' [Hrun [_ [_ Hs]]]].
    assert (Hs' : sent w' = (sent w ++ [])%list) by (rewrite app_nil_r; exact Hs).
    exists true, w'. rewrite (requests_during_app _ _ _ Hs'). cbn [List.length].
    split; [exact Hrun |]. split; [lia |]. split; [| reflexivity].
    intros w2 Hgo. destruct (Hexcl w2 w1 Hgo Hno).
Qed.

(** C10. The path of the request is the plain concatenation of the fixed
    prefixes and the identifiers as given, whatever characters they hold:
    the request object an operation makes, when the prompt returns true,
    targets exactly that text, and no other request object is made. *)
Theorem paths_are_concatenated (connection : Connection) (user role : string)
    (w : World) :
  created (snd (IAM.add_role_to_user connection user role w)) =
    (created w ++
     if fst (IAM.yn_prompt ("Add role " ++ dquote ++ role ++ dquote ++ " to user "
                            ++ dquote ++ user ++ dquote ++ "? ") w)
     then [mkRequest "PUT" ("/iam/users/" ++ user ++ "/roles/" ++ role)]
     else [])%list /\
  created (snd (IAM.remove_role_from_user connection user role w)) =
    (created w ++
     if fst (IAM.yn_prompt ("Remove role " ++ dquote ++ role ++ dquote ++ " from user "
                            ++ dquote ++ user ++ dquote ++ "? ") w)
     then [mkRequest "DELETE" ("/iam/users/" ++ user ++ "/roles/" ++ role)]
     else [])%list /\
  created (snd (IAM.delete_user connection user w)) =
    (created w ++
     if fst (IAM.yn_prompt ("Delete user " ++ dquote ++ user ++ dquote ++ "? ") w)
     then [mkRequest "DELETE" ("/iam/users/" ++ user)]
     else [])%list.
Proof.
  assert (Hall : forall op message,
             question op = Some message ->
             created (snd (run (fun _ => None) connection op w)) =
             (created w ++ if fst (IAM.yn_prompt message w)
                           then [contract_request op] else [])%list).
  { intros op message Hq.
    destruct (IAM.yn_prompt message w) as [[|] w1] eqn:Hyn; cbn [fst].
    - destruct (run_proceeds (fun _ => None) connection op w w1) as [b [w' [Hrun [Hc _]]]].
      + unfold proceeds. rewrite Hq. exact Hyn.
      + rewrite Hrun. exact Hc.
    - destruct (run_declined (fun _ => None) connection op w w1) as [w' [Hrun [_ [Hc _]]]].
      + unfold declined. rewrite Hq. exact Hyn.
      + rewrite Hrun. rewrite app_nil_r. exact Hc. }
  split; [exact (Hall (AddRole user role) _ eq_refl) |].
  split; [exact (Hall (RemoveRole user role) _ eq_refl) |].
  exact (Hall (DeleteUser user) _ eq_refl).
Qed.

(** ** Faults *)

Lemma for_each_stops (label : string) (body : json -> Z -> M Z)
    (names : list string) (bad : json) (others : list json) :
  prints_entry label body -> throws_on_other body ->
  (forall s, bad <> j_string s) ->
  forall (k : nat) (w : World),
    (Z.of_nat k + Z.of_nat (List.length names) <= int_max)%Z ->
    exists w' part,
      for_each (map j_string names ++ bad :: others)%list body (Z.of_nat k) w
      = (Thrown, w') /\
      cout w' = cout w ++ numbered_from k label names ++ part /\
      cerr w' = cerr w.
Proof.
  intros Hbody Hother Hbad.
  induction names as [| name names IH]; intros k w Hfit.
  - cbn [map app]. rewrite for_each_cons.
    destruct (Hother bad (Z.of_nat k) w Hbad) as [w' [Hrun [[part Ho] He]]].
    rewrite Hrun. exists w', part. split; [reflexivity |]. split; [| exact He].
    rewrite Ho. reflexivity.
  - cbn [List.length] in Hfit.
    destruct (IH (S k)
                (put_cout endl (put_cout name (put_cout label
                   (put_cout (show_int (Z.of_nat k)) (put_cout "[" w))))))
      as [w' [part [Hrun [Ho He]]]]; [lia |].
    exists w', part.
    cbn [map app]. rewrite for_each_cons, Hbody.
    rewrite wrap_int_small by (unfold int_min, int_max in *; lia).
    replace (Z.of_nat k + 1)%Z with (Z.of_nat (S k)) by lia.
    rewrite Hrun.
    split; [reflexivity |]. split; [| exact He].
    rewrite Ho. unfold numbered_from.
    cbn [List.length seq combine map fold_right].
    same_text.
Qed.

(** C7, amended. No exception leaves an operation.  When sending the
    request throws, the operation writes its error line to the error stream,
    writes nothing to standard output and returns false.  When decoding the
    payload of a listing throws, the operation writes its error line and
    returns false as well, but the header of the listing is already on
    standard output; and when an element of the decoded sequence is not a
    string, so are the entries before it. *)
Theorem faults_are_caught (from_cbor : list Byte.byte -> option json)
    (connection : Connection) (op : Operation) :
  (forall w, exists b w', run from_cbor connection op w = (Returned b, w')) /\
  (forall w w1,
     proceeds op w w1 ->
     coap_exchange connection (contract_request op) = None ->
     exists w',
       run from_cbor connection op w = (Returned false, w') /\
       cerr w' = cerr w1 ++ fault_line op ++ endl /\
       cout w' = cout w1) /\
  (forall w resp,
     question op = None ->
     coap_exchange connection (contract_request op) = Some resp ->
     status_code resp = 205%Z ->
     from_cbor (payload resp) = None ->
     exists w',
       run from_cbor connection op w = (Returned false, w') /\
       cerr w' = cerr w ++ fault_line op ++ endl /\
       cout w' = cout w ++ listing_header op ++ endl) /\
  (forall w resp decoded names bad others,
     question op = None ->
     coap_exchange connection (contract_request op) = Some resp ->
     status_code resp = 205%Z ->
     from_cbor (payload resp) = Some decoded ->
     json_elements decoded = (map j_string names ++ bad :: others)%list ->
     (forall s, bad <> j_string s) ->
     (Z.of_nat (List.length names) < int_max)%Z ->
     exists w' part,
       run from_cbor connection op w = (Returned false, w') /\
       cerr w' = cerr w ++ fault_line op ++ endl /\
       cout w' = cout w ++ listing_header op ++ endl
                 ++ numbered (listing_label op) names ++ part).
Proof.
  split; [| split; [| split]].
  - intros w. destruct (proceeds_or_declined op w) as [w1 [Hgo | Hno]].
    + destruct (run_proceeds from_cbor connection op w w1 Hgo) as [b [w' [Hrun _]]].
      exists b, w'. exact Hrun.
    + destruct (run_declined from_cbor connection op w w1 Hno) as [w' [Hrun _]].
      exists true, w'. exact Hrun.
  - unfold proceeds, contract_request. intros w w1 Hgo Hex.
    destruct op as [| | user role | user role | user];
      cbv beta iota delta [question contract_method contract_path run fault_line] in *;
      [subst w1; step_op | subst w1; step_op | step_op; rewrite Hgo; step_op ..];
      rewrite Hex; step_op;
      (eexists; split; [reflexivity |]); split; same_text.
  - unfold contract_request. intros w [code bytes] Hq Hex Hcode Hdec.
    cbn [status_code payload] in Hcode, Hdec. subst code.
    destruct op as [| | user role | user role | user]; try discriminate Hq;
      cbv beta iota delta [contract_method contract_path run fault_line
                           listing_header] in *;
      step_op; rewrite Hex; step_op; settle_codes; rewrite Hdec;
      (eexists; split; [reflexivity |]); split; same_text.
  - unfold contract_request.
    intros w [code bytes] decoded names bad others Hq Hex Hcode Hdec Hitems Hbad Hfit.
    cbn [status_code payload] in Hcode, Hdec. subst code.
    destruct op as [| | user role | user role | user]; try discriminate Hq;
      cbv beta iota delta [contract_method contract_path run fault_line
                           listing_header listing_label] in *;
      step_op; rewrite Hex; step_op; settle_codes; rewrite Hdec, Hitems.
    all: match goal with
         | |- context [for_each _ ?body _ ?w0] =>
             match goal with
             | |- context [numbered ?label _] =>
                 destruct (for_each_stops label body names bad others)
                   with (k := 1%nat) (w := w0) as [w' [part [Hrun [Ho He]]]];
                 [ intros name i w2; reflexivity
                 | intros j i w2 Hj; destruct j;
                   try (eexists; split; [reflexivity |]; split;
                        [eexists; cbn [cout put_cout]; rewrite ?append_assoc;
                         reflexivity | reflexivity]);
                   exfalso; eapply Hj; reflexivity
                 | exact Hbad
                 | change (Z.of_nat 1) with 1%Z; lia
                 | ]
             end
         end;
      change (Z.of_nat 1) with 1%Z in Hrun; rewrite Hrun;
      (eexists; exists part; split; [reflexivity |]);
      cbn [cout cerr put_cerr]; rewrite Ho, He; unfold numbered;
      split; same_text.
Qed.

(** ** Concrete runs *)

(** C1 as stated fails: asked to add a role, the operator answers [n], and
    no PUT is sent. *)
Lemma add_role_declined_sends_no_put :
  sent (snd (IAM.add_role_to_user (answering 201 []) "bob" "admin" (console "n"))) = [] /\
  sent (snd (IAM.add_role_to_user (answering 201 []) "bob" "admin" (console "n")))
    <> [mkRequest "PUT" "/iam/users/bob/roles/admin"].
Proof. vm_compute. split; [reflexivity | discriminate]. Qed.

(** C9 as stated fails: a declined [delete_user] performs no request. *)
Lemma delete_user_declined_performs_no_request :
  requests_during (console "n")
    (snd (IAM.delete_user (answering 202 []) "bob" (console "n"))) = [] /\
  List.length (requests_during (console "n")
    (snd (IAM.delete_user (answering 202 []) "bob" (console "n")))) <> 1%nat.
Proof. vm_compute. split; [reflexivity | discriminate]. Qed.

(** C7 as stated fails: the payload decodes to the sequence of the string
    [alice] and the number 5; reading the number as a string throws, the
    operation reports the fault and returns false, and yet the header and
    the entry of [alice] are on standard output. *)
Lemma listing_is_printed_before_the_fault :
  get_string (j_number 5) (console EmptyString) = (Thrown, console EmptyString) /\
  fst (IAM.list_users (decodes_to (j_array [j_string "alice"; j_number 5]))
         (answering 205 []) (console EmptyString)) = Returned false /\
  cerr (snd (IAM.list_users (decodes_to (j_array [j_string "alice"; j_number 5]))
               (answering 205 []) (console EmptyString)))
    = "Cannot get IAM user list" ++ endl /\
  cout (snd (IAM.list_users (decodes_to (j_array [j_string "alice"; j_number 5]))
               (answering 205 []) (console EmptyString)))
    = "Listing all users..." ++ endl ++ "[1] UserID: alice" ++ endl ++ "[2] UserID: " /\
  cout (snd (IAM.list_users (decodes_to (j_array [j_string "alice"; j_number 5]))
               (answering 205 []) (console EmptyString)))
    <> cout (console EmptyString).
Proof. vm_compute. repeat split; discriminate. Qed.

Lemma request_follows_contract_witness :
  (proceeds (AddRole "bob" "admin") (console "y")
     (after_prompt (AddRole "bob" "admin") (console "y")) /\
   exists b w',
     run (decodes_to j_null) (answering 201 []) (AddRole "bob" "admin") (console "y")
       = (Returned b, w') /\
     requests_during (console "y") w' = [mkRequest "PUT" "/iam/users/bob/roles/admin"] /\
     created w' = [mkRequest "PUT" "/iam/users/bob/roles/admin"]) /\
  (declined (AddRole "bob" "admin") (console "n")
     (after_prompt (AddRole "bob" "admin") (console "n")) /\
   exists w',
     run (decodes_to j_null) (answering 201 []) (AddRole "bob" "admin") (console "n")
       = (Returned true, w') /\
     requests_during (console "n") w' = [] /\
     created w' = []).
Proof.
  split.
  - split; [vm_compute; reflexivity |].
    apply (proj1 (request_follows_contract (decodes_to j_null) (answering 201 [])
                    (AddRole "bob" "admin") (console "y")
                    (after_prompt (AddRole "bob" "admin") (console "y")))).
    vm_compute. reflexivity.
  - split; [vm_compute; reflexivity |].
    apply (proj2 (request_follows_contract (decodes_to j_null) (answering 201 [])
                    (AddRole "bob" "admin") (console "n")
                    (after_prompt (AddRole "bob" "admin") (console "n")))).
    vm_compute. reflexivity.
Defined.

Lemma declined_is_cancelled_witness :
  (IAM.yn_prompt ("Add role " ++ dquote ++ "admin" ++ dquote ++ " to user "
                  ++ dquote ++ "bob" ++ dquote ++ "? ") (console "n")
   = (false, after_prompt (AddRole "bob" "admin") (console "n")) /\
   exists w',
     IAM.add_role_to_user (answering 201 []) "bob" "admin" (console "n")
       = (Returned true, w') /\
     cout w' = cout (after_prompt (AddRole "bob" "admin") (console "n"))
               ++ "Action cancelled." ++ endl /\
     created w' = [] /\ sent w' = []) /\
  (IAM.yn_prompt ("Remove role " ++ dquote ++ "admin" ++ dquote ++ " from user "
                  ++ dquote ++ "bob" ++ dquote ++ "? ") (console "n")
   = (false, after_prompt (RemoveRole "bob" "admin") (console "n")) /\
   exists w',
     IAM.remove_role_from_user (answering 202 []) "bob" "admin" (console "n")
       = (Returned true, w') /\
     cout w' = cout (after_prompt (RemoveRole "bob" "admin") (console "n"))
               ++ "Action cancelled." ++ endl /\
     created w' = [] /\ sent w' = []) /\
  (IAM.yn_prompt ("Delete user " ++ dquote ++ "bob" ++ dquote ++ "? ") (console "n")
   = (false, after_prompt (DeleteUser "bob") (console "n")) /\
   exists w',
     IAM.delete_user (answering 202 []) "bob" (console "n") = (Returned true, w') /\
     cout w' = cout (after_prompt (DeleteUser "bob") (console "n"))
               ++ "Action cancelled." ++ endl /\
     created w' = [] /\ sent w' = []).
Proof.
  split; [| split].
  - split; [vm_compute; reflexivity |].
    apply (proj1 (declined_is_cancelled (answering 201 []) "bob" "admin" (console "n")
                    (after_prompt (AddRole "bob" "admin") (console "n")))).
    vm_compute. reflexivity.
  - split; [vm_compute; reflexivity |].
    apply (proj1 (proj2 (declined_is_cancelled (answering 202 []) "bob" "admin"
                           (console "n")
                           (after_prompt (RemoveRole "bob" "admin") (console "n"))))).
    vm_compute. reflexivity.
  - split; [vm_compute; reflexivity |].
    apply (proj2 (proj2 (declined_is_cancelled (answering 202 []) "bob" "admin"
                           (console "n")
                           (after_prompt (DeleteUser "bob") (console "n"))))).
    vm_compute. reflexivity.
Defined.

Lemma remove_role_is_silent_on_unknown_status_witness :
  proceeds (RemoveRole "bob" "admin") (console "y")
    (after_prompt (RemoveRole "bob" "admin") (console "y")) /\
  coap_exchange (answering 418 []) (contract_request (RemoveRole "bob" "admin"))
    = Some (mkResponse 418 []) /\
  ~ In (status_code (mkResponse 418 [])) (handled_codes (RemoveRole "bob" "admin")) /\
  exists w',
    run (decodes_to j_null) (answering 418 []) (RemoveRole "bob" "admin") (console "y")
      = (Returned false, w') /\
    cerr w' = EmptyString /\
    cout w' = cout (after_prompt (RemoveRole "bob" "admin") (console "y")).
Proof.
  split; [vm_compute; reflexivity |].
  split; [reflexivity |].
  split; [vm_compute; intuition discriminate |].
  apply (remove_role_is_silent_on_unknown_status (decodes_to j_null) (answering 418 [])
           (RemoveRole "bob" "admin") (mkResponse 418 []) (console "y")
           (after_prompt (RemoveRole "bob" "admin") (console "y"))).
  - vm_compute. reflexivity.
  - reflexivity.
  - vm_compute. intuition discriminate.
Defined.

Lemma denied_prints_guidance_witness :
  proceeds (AddRole "bob" "admin") (console "y")
    (after_prompt (AddRole "bob" "admin") (console "y")) /\
  coap_exchange (answering 403 []) (contract_request (AddRole "bob" "admin"))
    = Some (mkResponse 403 []) /\
  status_code (mkResponse 403 []) = 403%Z /\
  exists w',
    run (decodes_to j_null) (answering 403 []) (AddRole "bob" "admin") (console "y")
      = (Returned false, w') /\
    cout w' = cout (after_prompt (AddRole "bob" "admin") (console "y"))
              ++ "The request was denied." ++ endl ++ access_denied_text /\
    cerr w' = EmptyString.
Proof.
  split; [vm_compute; reflexivity |].
  split; [reflexivity |].
  split; [reflexivity |].
  apply (denied_prints_guidance (decodes_to j_null) (answering 403 [])
           (AddRole "bob" "admin") (mkResponse 403 []) (console "y")
           (after_prompt (AddRole "bob" "admin") (console "y"))).
  - vm_compute. reflexivity.
  - reflexivity.
  - reflexivity.
Defined.

Lemma list_users_prints_numbered_witness :
  coap_exchange (answering 205 []) (mkRequest "GET" "/iam/users")
    = Some (mkResponse 205 []) /\
  status_code (mkResponse 205 []) = 205%Z /\
  decodes_to (j_array [j_string "alice"; j_string "bob"]) (payload (mkResponse 205 []))
    = Some (j_array (map j_string ["alice"; "bob"])) /\
  (Z.of_nat (List.length ["alice"; "bob"]) < int_max)%Z /\
  exists w',
    IAM.list_users (decodes_to (j_array [j_string "alice"; j_string "bob"]))
      (answering 205 []) (console EmptyString) = (Returned true, w') /\
    cout w' = "Listing all users..." ++ endl
              ++ "[1] UserID: alice" ++ endl
              ++ "[2] UserID: bob" ++ endl /\
    cerr w' = EmptyString.
Proof.
  split; [reflexivity |].
  split; [reflexivity |].
  split; [reflexivity |].
  split; [vm_compute; reflexivity |].
  apply (list_users_prints_numbered
           (decodes_to (j_array [j_string "alice"; j_string "bob"]))
           (answering 205 []) (mkResponse 205 []) ["alice"; "bob"]
           (console EmptyString)).
  - reflexivity.
  - reflexivity.
  - reflexivity.
  - vm_compute. reflexivity.
Defined.

Lemma delete_user_reports_unknown_status_witness :
  IAM.yn_prompt ("Delete user " ++ dquote ++ "bob" ++ dquote ++ "? ") (console "y")
    = (true, after_prompt (DeleteUser "bob") (console "y")) /\
  coap_exchange (answering 418 []) (mkRequest "DELETE" ("/iam/users/" ++ "bob"))
    = Some (mkResponse 418 []) /\
  418%Z <> 202%Z /\ 418%Z <> 403%Z /\
  exists w',
    IAM.delete_user (answering 418 []) "bob" (console "y") = (Returned false, w') /\
    cout w' = cout (after_prompt (DeleteUser "bob") (console "y"))
              ++ "The CoAP request to /iam/users/bob returned response code: 418"
              ++ endl /\
    cerr w' = EmptyString.
Proof.
  split; [vm_compute; reflexivity |].
  split; [reflexivity |].
  split; [lia |].
  split; [lia |].
  apply (delete_user_reports_unknown_status (answering 418 []) "bob" 418 []
           (console "y") (after_prompt (DeleteUser "bob") (console "y"))).
  - vm_compute. reflexivity.
  - reflexivity.
  - lia.
  - lia.
Defined.

Lemma faults_are_caught_witness :
  (proceeds (DeleteUser "bob") (console "y")
     (after_prompt (DeleteUser "bob") (console "y")) /\
   coap_exchange unreachable (contract_request (DeleteUser "bob")) = None /\
   exists w',
     run (decodes_to j_null) unreachable (DeleteUser "bob") (console "y")
       = (Returned false, w') /\
     cerr w' = "An unknown error occurred." ++ endl /\
     cout w' = cout (after_prompt (DeleteUser "bob") (console "y"))) /\
  (question ListUsers = None /\
   coap_exchange (answering 205 []) (contract_request ListUsers)
     = Some (mkResponse 205 []) /\
   status_code (mkResponse 205 []) = 205%Z /\
   (fun _ : list Byte.byte => @None json) (payload (mkResponse 205 [])) = None /\
   exists w',
     run (fun _ => None) (answering 205 []) ListUsers (console EmptyString)
       = (Returned false, w') /\
     cerr w' = "Cannot get IAM user list" ++ endl /\
     cout w' = "Listing all users..." ++ endl) /\
  (question ListRoles = None /\
   coap_exchange (answering 205 []) (contract_request ListRoles)
     = Some (mkResponse 205 []) /\
   status_code (mkResponse 205 []) = 205%Z /\
   decodes_to (j_array [j_string "admin"; j_null; j_string "guest"])
     (payload (mkResponse 205 []))
     = Some (j_array [j_string "admin"; j_null; j_string "guest"]) /\
   json_elements (j_array [j_string "admin"; j_null; j_string "guest"])
     = (map j_string ["admin"] ++ j_null :: [j_string "guest"])%list /\
   (forall s, j_null <> j_string s) /\
   (Z.of_nat (List.length ["admin"]) < int_max)%Z /\
   exists w' part,
     run (decodes_to (j_array [j_string "admin"; j_null; j_string "guest"]))
       (answering 205 []) ListRoles (console EmptyString) = (Returned false, w') /\
     cerr w' = "Cannot get IAM role list" ++ endl /\
     cout w' = "Listing available roles..." ++ endl ++ "[1]: admin" ++ endl ++ part).
Proof.
  split; [| split].
  - split; [vm_compute; reflexivity |].
    split; [reflexivity |].
    apply (proj1 (proj2 (faults_are_caught (decodes_to j_null) unreachable
                           (DeleteUser "bob")))
             (console "y") (after_prompt (DeleteUser "bob") (console "y"))).
    + vm_compute. reflexivity.
    + reflexivity.
  - split; [reflexivity |].
    split; [reflexivity |].
    split; [reflexivity |].
    split; [reflexivity |].
    apply (proj1 (proj2 (proj2 (faults_are_caught (fun _ => None) (answering 205 [])
                                  ListUsers)))
             (console EmptyString) (mkResponse 205 [])); reflexivity.
  - split; [reflexivity |].
    split; [reflexivity |].
    split; [reflexivity |].
    split; [reflexivity |].
    split; [reflexivity |].
    split; [discriminate |].
    split; [vm_compute; reflexivity |].
    apply (proj2 (proj2 (proj2 (faults_are_caught
                                  (decodes_to (j_array [j_string "admin"; j_null;
                                                        j_string "guest"]))
                                  (answering 205 []) ListRoles)))
             (console EmptyString) (mkResponse 205 [])
             (j_array [j_string "admin"; j_null; j_string "guest"])
             ["admin"] j_null [j_string "guest"]).
    + reflexivity.
    + reflexivity.
    + reflexivity.
    + reflexivity.
    + reflexivity.
    + discriminate.
    + vm_compute. reflexivity.
Defined.

Lemma yn_prompt_dialogue_witness :
  exists (rejected rest : list ascii) (b : bool) (w' : World),
    readable (console "maybe yes") = (rejected ++ rest)%list /\
    Forall not_an_answer rejected /\
    (rest = [] \/
     exists c tl, rest = c :: tl /\ (c = "y"%char \/ c = "n"%char)) /\
    IAM.yn_prompt "Sure?" (console "maybe yes") = (b, w') /\
    cout w' = cout (console "maybe yes")
              ++ copies (S (List.length rejected)) ("Sure?" ++ " [y/n]: ") /\
    (b = true <-> exists tl, rest = "y"%char :: tl) /\
    (cin_fail w' = true <-> rest = []) /\
    (cin_fail w' = true -> b = false) /\
    readable w' = tl rest.
Proof.
  exact (yn_prompt_dialogue "Sure?" (console "maybe yes")).
Defined.

Lemma at_most_one_request_witness :
  exists b w',
    run (decodes_to j_null) unreachable (RemoveRole "bob" "admin") (console "y")
      = (Returned b, w') /\
    (List.length (requests_during (console "y") w') <= 1)%nat /\
    (forall w1, proceeds (RemoveRole "bob" "admin") (console "y") w1 ->
                List.length (requests_during (console "y") w') = 1%nat) /\
    (forall w1, declined (RemoveRole "bob" "admin") (console "y") w1 ->
                List.length (requests_during (console "y") w') = 0%nat).
Proof.
  exact (at_most_one_request (decodes_to j_null) unreachable
           (RemoveRole "bob" "admin") (console "y")).
Defined.

Lemma paths_are_concatenated_witness :
  created (snd (IAM.add_role_to_user (answering 201 []) EmptyString "a/b" (console "y")))
    = [mkRequest "PUT" "/iam/users//roles/a/b"] /\
  created (snd (IAM.remove_role_from_user (answering 202 []) "../x" EmptyString
                  (console "y")))
    = [mkRequest "DELETE" "/iam/users/../x/roles/"] /\
  created (snd (IAM.delete_user (answering 202 []) "a/b/c" (console "y")))
    = [mkRequest "DELETE" "/iam/users/a/b/c"].
Proof.
  split; [| split].
  - exact (proj1 (paths_are_concatenated (answering 201 []) EmptyString "a/b"
                    (console "y"))).
  - exact (proj1 (proj2 (paths_are_concatenated (answering 202 []) "../x" EmptyString
                           (console "y")))).
  - exact (proj2 (proj2 (paths_are_concatenated (answering 202 []) "a/b/c" EmptyString
                           (console "y")))).
Defined.

(** * Further properties of the operations *)

(** ** Parts of the world an operation leaves alone *)

Section Preserved.

Context {X : Type} (f : World -> X).
Hypothesis f_put_cout : forall s w, f (put_cout s w) = f w.

Lemma preserves_ret {A : Type} (a : A) : preserves f (ret a).
Proof. intros w. reflexivity. Qed.

Lemma preserves_throw {A : Type} : preserves f (@throw A).
Proof. intros w. reflexivity. Qed.

Lemma preserves_cout_put (s : string) : preserves f (cout_put s).
Proof. intros w. apply f_put_cout. Qed.

Lemma preserves_bind {A B : Type} (c : M A) (k : A -> M B) :
  preserves f c -> (forall a, preserves f (k a)) -> preserves f (bind c k).
Proof.
  intros Hc Hk w. unfold bind.
  pose proof (Hc w) as Hcw.
  destruct (c w) as [[a |] w1]; simpl in *.
  - rewrite (Hk a w1). exact Hcw.
  - exact Hcw.
Qed.

Lemma preserves_if {A : Type} (b : bool) (c1 c2 : M A) :
  preserves f c1 -> preserves f c2 -> preserves f (if b then c1 else c2).
Proof. destruct b; auto. Qed.

Lemma preserves_get_string (j : json) : preserves f (get_string j).
Proof. destruct j; intros w; reflexivity. Qed.

Lemma preserves_json_from_cbor (from_cbor : list Byte.byte -> option json)
    (cbor : list Byte.byte) :
  preserves f (IAM.json_from_cbor from_cbor cbor).
Proof.
  unfold IAM.json_from_cbor. destruct (from_cbor cbor); intros w; reflexivity.
Qed.

Lemma preserves_for_each {A S : Type} (l : list A) (body : A -> S -> M S) :
  (forall a s, preserves f (body a s)) -> forall s, preserves f (for_each l body s).
Proof.
  intros Hbody. induction l as [| a l IH]; intros s; simpl.
  - apply preserves_ret.
  - apply preserves_bind; [apply Hbody | exact IH].
Qed.

End Preserved.

Ltac show_preserves :=
  repeat (intros; cbv beta;
          match goal with
          | |- preserves _ _ =>
              first [ apply preserves_ret | apply preserves_throw
                    | apply preserves_cout_put | apply preserves_get_string
                    | apply preserves_json_from_cbor
                    | apply preserves_for_each | apply preserves_if
                    | apply preserves_bind ]
          end);
  try (intros; reflexivity).

(** What [request_then] computes, by the outcome of the exchange and of the
    handling of the answer. *)
Lemma request_then_run (connection : Connection) (method path : string)
    (rest : Response -> M bool) (line : string) (w : World) :
  request_then connection method path rest line w =
  let r := mkRequest method path in
  let w2 := mkWorld (cin w) (cin_fail w) (cout w) (cerr w)
                    (created w ++ [r])%list (sent w ++ [r])%list in
  match coap_exchange connection r with
  | None => (Returned false, put_cerr endl (put_cerr line w2))
  | Some resp =>
      match rest resp w2 with
      | (Returned b, w3) => (Returned b, w3)
      | (Thrown, w3) => (Returned false, put_cerr endl (put_cerr line w3))
      end
  end.
Proof.
  unfold request_then, bind, try_catch, createCoap, execute, cerr_put, ret. simpl.
  destruct (coap_exchange connection (mkRequest method path)) as [resp |];
    [| reflexivity].
  match goal with |- context [rest resp ?w2] => destruct (rest resp w2) as [[b |] w3] end;
    reflexivity.
Qed.

(** ** The loop of a listing stops at the first value that is not a string *)

Lemma is_string_dec (j : json) : is_string j \/ ~ is_string j.
Proof.
  destruct j; try (right; intros [s Hs]; discriminate).
  left. eexists. reflexivity.
Qed.

Lemma for_each_returns_iff (body : json -> Z -> M Z) :
  (forall name i w, exists i' w', body (j_string name) i w = (Returned i', w')) ->
  (forall bad i w, ~ is_string bad -> exists w', body bad i w = (Thrown, w')) ->
  forall (l : list json) (i : Z) (w : World),
    (exists i' w', for_each l body i w = (Returned i', w')) <-> Forall is_string l.
Proof.
  intros Hstr Hbad. induction l as [| j l IH]; intros i w.
  - split; [constructor |]. intros _. exists i, w. reflexivity.
  - rewrite for_each_cons.
    destruct (is_string_dec j) as [[name ->] | Hj].
    + destruct (Hstr name i w) as [i' [w' Hrun]]. rewrite Hrun.
      rewrite IH. split.
      * intros Hl. constructor; [exists name; reflexivity | exact Hl].
      * intros Hl. inversion Hl; assumption.
    + destruct (Hbad j i w Hj) as [w' Hrun]. rewrite Hrun. split.
      * intros [i' [w'' Habs]]. discriminate.
      * intros Hl. inversion Hl; contradiction.
Qed.

(** The handling of the answer in a listing, given what its loop body does:
    true exactly on status 205 with a payload of strings. *)
Lemma listing_true_iff (from_cbor : list Byte.byte -> option json)
    (header : string) (body : json -> Z -> M Z) (other : M bool)
    (resp : Response) (w : World) :
  (forall name i w, exists i' w', body (j_string name) i w = (Returned i', w')) ->
  (forall bad i w, ~ is_string bad -> exists w', body bad i w = (Thrown, w')) ->
  (status_code resp <> 205%Z -> fst (other w) <> Returned true) ->
  fst ((if (status_code resp =? 205)%Z
        then cout_put header ;; cout_put endl ;;
             decoded <- IAM.json_from_cbor from_cbor (payload resp) ;;
             for_each (json_elements decoded) body 1%Z ;;
             ret true
        else other) w) = Returned true
  <-> status_code resp = 205%Z /\ lists_strings from_cbor resp.
Proof.
  intros Hstr Hbad Hother.
  destruct (Z.eqb_spec (status_code resp) 205) as [Hcode | Hcode].
  - unfold lists_strings, IAM.json_from_cbor.
    unfold bind at 1. unfold bind at 1. unfold bind at 1. cbn [cout_put].
    destruct (from_cbor (payload resp)) as [j |]; cbn [ret throw].
    + pose proof (for_each_returns_iff body Hstr Hbad (json_elements j) 1%Z
                    (put_cout endl (put_cout header w))) as Hiff.
      unfold bind.
      destruct (for_each (json_elements j) body 1%Z
                  (put_cout endl (put_cout header w))) as [[i' |] w'] eqn:Hrun;
        cbn [fst ret]; split.
      * intros _. split; [exact Hcode |]. exists j. split; [reflexivity |].
        apply Hiff. exists i', w'. reflexivity.
      * reflexivity.
      * discriminate.
      * intros [_ [j' [Hj' Hall]]]. inversion Hj'; subst j'.
        apply Hiff in Hall. destruct Hall as [i' [w'' Habs]]. discriminate.
    + cbn [fst]. split; [discriminate |].
      intros [_ [j [Habs _]]]. discriminate.
  - split.
    + intros Hrun. destruct (Hother Hcode Hrun).
    + intros [Habs _]. contradiction.
Qed.

(** ** The shape of an operation that proceeds *)

Ltac show_handles_listing :=
  split; [show_quiet |];
  split; [show_preserves |];
  split; [show_preserves |];
  split;
  [ intros resp w0; unfold accepted; cbn [question success_code];
    rewrite listing_true_iff;
    [ split; [intros [Hc Hl]; split; auto | intros [Hc Hl]; split; auto]
    | intros name i w2; eexists; eexists; reflexivity
    | intros bad i w2 Hbad; destruct bad;
      try (eexists; reflexivity);
      exfalso; apply Hbad; eexists; reflexivity
    | intros Hcode; destruct (status_code resp =? 403)%Z; discriminate ]
  | intros Hq; exfalso; apply Hq; reflexivity ].

Lemma returns_if {A : Type} (b : bool) (c1 c2 : M A) :
  returns c1 -> returns c2 -> returns (if b then c1 else c2).
Proof. destruct b; auto. Qed.

Ltac show_returns_all :=
  repeat (intros; cbv beta;
          match goal with
          | |- returns _ =>
              first [ apply returns_ret | apply returns_cout_put
                    | apply returns_cerr_put | apply returns_if
                    | apply returns_bind ]
          end).

Ltac show_handles_mutating :=
  split; [show_quiet |];
  split; [show_preserves |];
  split; [show_preserves |];
  split;
  [ intros resp w0; cbv beta; unfold accepted; cbn [question success_code];
    repeat match goal with
           | |- context [(status_code resp =? ?k)%Z] =>
               destruct (Z.eqb_spec (status_code resp) k)
           end;
    step_op; cbn [fst];
    (split;
     [ intros Htrue;
       first [discriminate Htrue | split; [assumption | discriminate]]
     | intros [Hcode _]; first [reflexivity | congruence] ])
  | intros _; show_returns_all ].

Lemma run_shape (from_cbor : list Byte.byte -> option json)
    (connection : Connection) (op : Operation) (w w1 : World) :
  proceeds op w w1 ->
  exists rest,
    run from_cbor connection op w =
    request_then connection (contract_method op) (contract_path op) rest
                 (fault_line op) w1 /\
    handles from_cbor op rest.
Proof.
  unfold proceeds, handles.
  destruct op as [| | user role | user role | user];
    cbv beta iota delta [question contract_method contract_path run fault_line];
    intros Hgo.
  - subst w1. unfold IAM.list_users, getResponseStatusCode, getResponsePayload.
    cbv zeta. eexists. split; [reflexivity |].
    show_handles_listing.
  - subst w1. unfold IAM.list_roles, getResponseStatusCode, getResponsePayload.
    cbv zeta. eexists. split; [reflexivity |].
    show_handles_listing.
  - unfold IAM.add_role_to_user, getResponseStatusCode. cbv zeta.
    unfold bind at 1, lift. rewrite Hgo.
    eexists. split; [reflexivity |].
    show_handles_mutating.
  - unfold IAM.remove_role_from_user, getResponseStatusCode. cbv zeta.
    unfold bind at 1, lift. rewrite Hgo.
    eexists. split; [reflexivity |].
    show_handles_mutating.
  - unfold IAM.delete_user, getResponseStatusCode. cbv zeta.
    unfold bind at 1, lift. rewrite Hgo.
    eexists. split; [reflexivity |].
    show_handles_mutating.
Qed.

(** ** The prompt, by what the input holds *)

(** The input holds an answer: the characters before it are rejected, the
    answer is consumed and the rest is left. *)
Lemma yn_prompt_answered (message : string) (rejected : list ascii) (c : ascii)
    (tl : list ascii) :
  Forall not_an_answer rejected ->
  c = "y"%char \/ c = "n"%char ->
  forall w,
    readable w = (rejected ++ c :: tl)%list ->
    exists w1,
      IAM.yn_prompt message w = (Ascii.eqb c "y", w1) /\
      readable w1 = tl /\ cin_fail w1 = false /\
      cout w1 = cout w ++ copies (S (List.length rejected)) (message ++ " [y/n]: ").
Proof.
  intros Hrej Hc w Hr.
  destruct (yn_loop_run message (readable w) zero w eq_refl)
    as [rejected' [rest [answer' [w1 [Hsplit [Hrej' [Hloop [Ho [_ [_ [_ Hend]]]]]]]]]]].
  assert (Hshape : match rest with
                   | [] => True
                   | c' :: _ => c' = "y"%char \/ c' = "n"%char
                   end).
  { destruct rest; [exact I | exact (proj1 Hend)]. }
  assert (Hsame : rejected' = rejected /\ rest = c :: tl).
  { rewrite Hr in Hsplit. clear - Hsplit Hrej Hrej' Hc Hshape.
    revert rejected' Hsplit Hrej'.
    induction Hrej as [| a rejected Ha Hrej IH]; intros rejected' Hsplit Hrej'.
    - destruct rejected' as [| a' rejected'']; cbn [app] in Hsplit.
      + auto.
      + inversion Hsplit; subst a'. inversion Hrej' as [| ? ? [Hy Hn] ?]; subst.
        destruct Hc; contradiction.
    - destruct rejected' as [| a' rejected'']; cbn [app] in Hsplit.
      + subst rest. destruct Ha as [Hy Hn].
        destruct Hshape; contradiction.
      + inversion Hsplit; subst a'. inversion Hrej'; subst.
        destruct (IH rejected'') as [-> ->]; auto. }
  destruct Hsame as [-> ->].
  destruct Hend as [_ [-> [Hgood Hrest]]].
  exists w1. unfold IAM.yn_prompt. rewrite Hloop. auto.
Qed.

(** The input holds no answer: every character is rejected, the stream
    fails and the prompt returns false. *)
Lemma yn_prompt_unanswered (message : string) (w : World) :
  Forall not_an_answer (readable w) ->
  exists w1,
    IAM.yn_prompt message w = (false, w1) /\
    cin_fail w1 = true /\
    cout w1 = cout w ++ copies (S (List.length (readable w))) (message ++ " [y/n]: ").
Proof.
  intros Hno.
  destruct (yn_loop_run message (readable w) zero w eq_refl)
    as [rejected [rest [answer' [w1 [Hsplit [Hrej [Hloop [Ho [_ [_ [_ Hend]]]]]]]]]]].
  destruct rest as [| c tl].
  - rewrite app_nil_r in Hsplit. subst rejected.
    destruct Hend as [Hfail Hlast].
    assert (Hans : not_an_answer answer').
    { rewrite Hlast. apply last_Forall; [exact Hrej | split; discriminate]. }
    destruct Hans as [Hy _]. apply Ascii.eqb_neq in Hy.
    exists w1. unfold IAM.yn_prompt. rewrite Hloop, Hy. auto.
  - destruct Hend as [Hyn _].
    rewrite Hsplit in Hno. apply Forall_app in Hno. destruct Hno as [_ Hno].
    inversion Hno as [| ? ? [Hy Hn] ?]; subst. destruct Hyn; contradiction.
Qed.

(** The world a declined operation leaves. *)
Lemma run_declined_world (from_cbor : list Byte.byte -> option json)
    (connection : Connection) (op : Operation) (w w1 : World) :
  declined op w w1 ->
  run from_cbor connection op w =
  (Returned true, put_cout endl (put_cout "Action cancelled." w1)).
Proof.
  unfold declined.
  destruct op as [| | user role | user role | user];
    cbv beta iota delta [question run]; intros Hno; try contradiction;
    step_op; rewrite Hno; reflexivity.
Qed.

(** The prompt leaves everything but the input and standard output alone. *)
Lemma proceeds_frame (op : Operation) (w w1 : World) :
  proceeds op w w1 \/ declined op w w1 ->
  cerr w1 = cerr w /\ created w1 = created w /\ sent w1 = sent w.
Proof.
  unfold proceeds, declined. destruct (question op) as [message |].
  - intros [H | H]; exact (yn_prompt_frame _ _ _ _ H).
  - intros [-> | []]. auto.
Qed.

(** ** What the answer of the device leads to *)

(** X1. When the device answers [list_roles] with status 205 and a payload
    that decodes to a sequence of strings, the header of the role listing is
    printed, then each string in order after its index counted from 1, in
    brackets and followed by a colon, and the result is true. *)
Theorem list_roles_prints_numbered (from_cbor : list Byte.byte -> option json)
    (connection : Connection) (resp : Response) (names : list string) (w : World) :
  coap_exchange connection (mkRequest "GET" "/iam/roles") = Some resp ->
  status_code resp = 205%Z ->
  from_cbor (payload resp) = Some (j_array (map j_string names)) ->
  (Z.of_nat (List.length names) < int_max)%Z ->
  exists w',
    IAM.list_roles from_cbor connection w = (Returned true, w') /\
    cout w' = cout w ++ "Listing available roles..." ++ endl
              ++ numbered "]: " names /\
    cerr w' = cerr w.
Proof.
  destruct resp as [code bytes]. cbn [status_code payload].
  intros Hex -> Hdec Hfit.
  step_op. rewrite Hex. step_op. settle_codes. rewrite Hdec.
  cbn [json_elements].
  match goal with
  | |- context [for_each _ ?body _ ?w0] =>
      destruct (for_each_strings "]: " body names) with (k := 1%nat) (w := w0)
        as [w' [Hrun [Ho [He _]]]];
        [intros name i w2; reflexivity | change (Z.of_nat 1) with 1%Z; lia |]
  end.
  change (Z.of_nat 1) with 1%Z in Hrun. rewrite Hrun.
  exists w'. split; [reflexivity |].
  rewrite Ho, He. unfold numbered. split; same_text.
Qed.

(** X2. A mutating operation that proceeds and is answered with its success
    code (201 for adding a role, 202 for removing a role and for deleting a
    user) prints [Success.] and returns true, and writes nothing to the
    error stream. *)
Theorem confirmed_success (from_cbor : list Byte.byte -> option json)
    (connection : Connection) (op : Operation) (resp : Response) (w w1 : World) :
  question op <> None ->
  proceeds op w w1 ->
  coap_exchange connection (contract_request op) = Some resp ->
  status_code resp = success_code op ->
  exists w',
    run from_cbor connection op w = (Returned true, w') /\
    cout w' = cout w1 ++ "Success." ++ endl /\
    cerr w' = cerr w1.
Proof.
  unfold proceeds, contract_request.
  destruct resp as [code bytes]. cbn [status_code]. intros Hq Hgo Hex ->.
  destruct op as [| | user role | user role | user];
    cbv beta iota delta [question contract_method contract_path run success_code] in *;
    try (exfalso; apply Hq; reflexivity);
    step_op; rewrite Hgo; step_op;
    rewrite Hex; step_op; settle_codes;
    (eexists; split; [reflexivity |]); split; same_text.
Qed.

(** X3. When the answer to a confirmed [add_role_to_user] or
    [remove_role_from_user] carries status 500, the two lines about error
    500 and the identifiers are printed and the result is false. *)
Theorem role_operations_explain_error_500 (connection : Connection)
    (user role : string) (resp : Response) (w w1 : World) :
  status_code resp = 500%Z ->
  (IAM.yn_prompt ("Add role " ++ dquote ++ role ++ dquote ++ " to user "
                  ++ dquote ++ user ++ dquote ++ "? ") w = (true, w1) ->
   coap_exchange connection
     (mkRequest "PUT" ("/iam/users/" ++ user ++ "/roles/" ++ role)) = Some resp ->
   exists w',
     IAM.add_role_to_user connection user role w = (Returned false, w') /\
     cout w' = cout w1 ++ "The request returned error 500." ++ endl
               ++ "Are you sure you typed in the right role id and user id?" ++ endl /\
     cerr w' = cerr w1) /\
  (IAM.yn_prompt ("Remove role " ++ dquote ++ role ++ dquote ++ " from user "
                  ++ dquote ++ user ++ dquote ++ "? ") w = (true, w1) ->
   coap_exchange connection
     (mkRequest "DELETE" ("/iam/users/" ++ user ++ "/roles/" ++ role)) = Some resp ->
   exists w',
     IAM.remove_role_from_user connection user role w = (Returned false, w') /\
     cout w' = cout w1 ++ "The request returned error 500." ++ endl
               ++ "Are you sure you typed in the right role id and user id?" ++ endl /\
     cerr w' = cerr w1).
Proof.
  destruct resp as [code bytes]. cbn [status_code]. intros ->.
  split; intros Hgo Hex;
    step_op; rewrite Hgo; step_op; rewrite Hex; step_op; settle_codes;
    (eexists; split; [reflexivity |]); split; same_text.
Qed.

(** X4. An operation returns true in two cases only: the operator declined
    it, or the device answered its request with the success code of the
    operation and, for a listing, with a payload that decodes to strings
    only.  In every other case it returns false. *)
Theorem result_true_iff (from_cbor : list Byte.byte -> option json)
    (connection : Connection) (op : Operation) (w : World) :
  exists b w',
    run from_cbor connection op w = (Returned b, w') /\
    (b = true <->
     (exists w1, declined op w w1) \/
     (exists resp, coap_exchange connection (contract_request op) = Some resp /\
                   accepted from_cbor op resp)).
Proof.
  assert (Hexcl : forall w1 w2, proceeds op w w1 -> declined op w w2 -> False).
  { unfold proceeds, declined. intros w1 w2.
    destruct (question op); [congruence | auto]. }
  destruct (proceeds_or_declined op w) as [w1 [Hgo | Hno]].
  - destruct (run_shape from_cbor connection op w w1 Hgo)
      as [rest [Hrun [_ [_ [_ [Htrue _]]]]]].
    rewrite Hrun, request_then_run. cbv zeta. unfold contract_request.
    destruct (coap_exchange connection
                (mkRequest (contract_method op) (contract_path op))) as [resp |].
    + match goal with
      | |- context [rest resp ?w2] =>
          pose proof (Htrue resp w2) as Hiff;
          destruct (rest resp w2) as [[b |] w3]
      end; cbn [fst] in Hiff.
      * exists b, w3. split; [reflexivity |]. split.
        -- intros ->. right. exists resp. split; [reflexivity |].
           apply Hiff. reflexivity.
        -- intros [[w2 Hno] | [resp' [Hresp Hacc]]].
           ++ destruct (Hexcl w1 w2 Hgo Hno).
           ++ inversion Hresp; subst resp'.
              apply Hiff in Hacc. inversion Hacc. reflexivity.
      * eexists; eexists. split; [reflexivity |]. split; [discriminate |].
        intros [[w2 Hno] | [resp' [Hresp Hacc]]].
        -- destruct (Hexcl w1 w2 Hgo Hno).
        -- inversion Hresp; subst resp'. apply Hiff in Hacc. discriminate.
    + eexists; eexists. split; [reflexivity |]. split; [discriminate |].
      intros [[w2 Hno] | [resp' [Hresp _]]].
      * destruct (Hexcl w1 w2 Hgo Hno).
      * discriminate.
  - rewrite (run_declined_world from_cbor connection op w w1 Hno).
    eexists; eexists. split; [reflexivity |]. split; [| reflexivity].
    intros _. left. exists w1. exact Hno.
Qed.

(** ** The input and the error stream *)

(** After the prompt an operation reads nothing, and the only thing it may
    write to the error stream is its fault line, once, with a false
    result; a mutating operation does so only when the exchange fails. *)
Lemma run_proceeds_streams (from_cbor : list Byte.byte -> option json)
    (connection : Connection) (op : Operation) (w w1 : World) :
  proceeds op w w1 ->
  exists b w',
    run from_cbor connection op w = (Returned b, w') /\
    input_state w' = input_state w1 /\
    (cerr w' = cerr w1 \/
     (b = false /\ cerr w' = cerr w1 ++ fault_line op ++ endl)) /\
    (question op <> None ->
     coap_exchange connection (contract_request op) <> None ->
     cerr w' = cerr w1).
Proof.
  intros Hgo.
  destruct (run_shape from_cbor connection op w w1 Hgo)
    as [rest [Hrun [_ [Herr [Hin [_ Hret]]]]]].
  rewrite Hrun, request_then_run. cbv zeta. unfold contract_request.
  destruct (coap_exchange connection
              (mkRequest (contract_method op) (contract_path op))) as [resp |].
  - match goal with
    | |- context [rest resp ?w2] =>
        pose proof (Herr resp w2) as He; pose proof (Hin resp w2) as Hi;
        pose proof (fun Hq => Hret Hq resp w2) as Hr;
        destruct (rest resp w2) as [[b |] w3]
    end; cbn [snd cerr] in He; cbn [snd] in Hi.
    + exists b, w3. split; [reflexivity |]. split; [exact Hi |].
      split; [left; exact He |]. intros _ _. exact He.
    + eexists; eexists. split; [reflexivity |]. split; [exact Hi |].
      split.
      * right. split; [reflexivity |]. cbn [cerr put_cerr]. rewrite He.
        apply append_assoc.
      * intros Hq _. destruct (Hr Hq) as [a [w4 Habs]]. discriminate.
  - eexists; eexists. split; [reflexivity |]. split; [reflexivity |].
    split.
    + right. split; [reflexivity |]. cbn [cerr put_cerr]. apply append_assoc.
    + intros _ Habs. exfalso. apply Habs. reflexivity.
Qed.

(** X5. When the input holds neither [y] nor [n] (in particular when it is
    empty or the stream has already failed), a mutating operation asks once
    for every character it reads and once more, then prints
    [Action cancelled.] and returns true without making a request; the
    stream is left failed. *)
Theorem unanswered_operation_is_cancelled
    (from_cbor : list Byte.byte -> option json) (connection : Connection)
    (op : Operation) (message : string) (w : World) :
  question op = Some message ->
  Forall not_an_answer (readable w) ->
  exists w',
    run from_cbor connection op w = (Returned true, w') /\
    cout w' = cout w ++ copies (S (List.length (readable w))) (message ++ " [y/n]: ")
              ++ "Action cancelled." ++ endl /\
    cin_fail w' = true /\
    created w' = created w /\ sent w' = sent w.
Proof.
  intros Hq Hno.
  destruct (yn_prompt_unanswered message w Hno) as [w1 [Hrun [Hfail Ho]]].
  assert (Hdecl : declined op w w1) by (unfold declined; rewrite Hq; exact Hrun).
  destruct (proceeds_frame op w w1 (or_intror Hdecl)) as [_ [Hc Hs]].
  rewrite (run_declined_world from_cbor connection op w w1 Hdecl).
  eexists. split; [reflexivity |].
  cbn [cout cin_fail created sent put_cout]. rewrite Ho.
  split; [rewrite !append_assoc; reflexivity |]. auto.
Qed.

(** X6. A listing never reads the input.  A mutating operation whose input
    holds an answer consumes the characters up to and including the first
    [y] or [n] and nothing more, whatever the device does; it sends its
    request exactly when that answer is [y]. *)
Theorem operation_reads_only_its_answer
    (from_cbor : list Byte.byte -> option json) (connection : Connection)
    (op : Operation) (w : World) :
  (question op = None ->
   exists b w',
     run from_cbor connection op w = (Returned b, w') /\
     cin w' = cin w /\ cin_fail w' = cin_fail w) /\
  (forall message rejected c tl,
     question op = Some message ->
     readable w = (rejected ++ c :: tl)%list ->
     Forall not_an_answer rejected ->
     c = "y"%char \/ c = "n"%char ->
     exists b w',
       run from_cbor connection op w = (Returned b, w') /\
       readable w' = tl /\ cin_fail w' = false /\
       requests_during w w' =
         if Ascii.eqb c "y" then [contract_request op] else []).
Proof.
  split.
  - intros Hq.
    assert (Hgo : proceeds op w w) by (unfold proceeds; rewrite Hq; reflexivity).
    destruct (run_proceeds_streams from_cbor connection op w w Hgo)
      as [b [w' [Hrun [Hin _]]]].
    exists b, w'. split; [exact Hrun |].
    unfold input_state in Hin. inversion Hin. auto.
  - intros message rejected c tl Hq Hr Hrej Hc.
    destruct (yn_prompt_answered message rejected c tl Hrej Hc w Hr)
      as [w1 [Hyn [Hr1 [Hf1 _]]]].
    destruct (Ascii.eqb c "y") eqn:Hy.
    + assert (Hgo : proceeds op w w1) by (unfold proceeds; rewrite Hq; exact Hyn).
      destruct (run_proceeds_streams from_cbor connection op w w1 Hgo)
        as [b [w' [Hrun [Hin _]]]].
      destruct (run_proceeds from_cbor connection op w w1 Hgo)
        as [b2 [w2 [Hrun2 [_ Hs]]]].
      rewrite Hrun in Hrun2. inversion Hrun2; subst b2 w2.
      exists b, w'. split; [exact Hrun |].
      unfold input_state in Hin. inversion Hin as [[Hcin Hfail]].
      unfold readable in *. rewrite Hfail, Hcin.
      split; [exact Hr1 |]. split; [exact Hf1 |].
      apply requests_during_app. exact Hs.
    + assert (Hno : declined op w w1) by (unfold declined; rewrite Hq; exact Hyn).
      destruct (proceeds_frame op w w1 (or_intror Hno)) as [_ [_ Hs]].
      rewrite (run_declined_world from_cbor connection op w w1 Hno).
      eexists; eexists. split; [reflexivity |].
      split; [exact Hr1 |]. split; [exact Hf1 |].
      apply requests_during_app. cbn [sent put_cout].
      rewrite app_nil_r. exact Hs.
Qed.

(** X7. The only text an operation ever writes to the error stream is its
    own fault line, at most once, and then it returns false.  A mutating
    operation writes it only when the exchange with the device fails: once
    the device has answered, whatever the status, the error stream is left
    as it was. *)
Theorem error_stream_holds_fault_lines_only
    (from_cbor : list Byte.byte -> option json) (connection : Connection)
    (op : Operation) (w : World) :
  exists b w',
    run from_cbor connection op w = (Returned b, w') /\
    (cerr w' = cerr w \/
     (b = false /\ cerr w' = cerr w ++ fault_line op ++ endl)) /\
    (question op <> None ->
     coap_exchange connection (contract_request op) <> None ->
     cerr w' = cerr w).
Proof.
  destruct (proceeds_or_declined op w) as [w1 [Hgo | Hno]].
  - destruct (proceeds_frame op w w1 (or_introl Hgo)) as [He _].
    destruct (run_proceeds_streams from_cbor connection op w w1 Hgo)
      as [b [w' [Hrun [_ [Hcases Hmut]]]]].
    exists b, w'. rewrite <- He. auto.
  - destruct (proceeds_frame op w w1 (or_intror Hno)) as [He _].
    rewrite (run_declined_world from_cbor connection op w w1 Hno).
    eexists; eexists. split; [reflexivity |].
    cbn [cerr put_cout]. auto.
Qed.

(** ** What the request depends on *)

(** X8. Identifiers are not escaped, so a user id may reach into the roles
    of another user: confirmed, [delete_user] for the id made of a user id,
    [/roles/] and a role id sends the very request that
    [remove_role_from_user] sends for that user and that role. *)
Theorem delete_user_aliases_remove_role (connection : Connection)
    (user role : string) (wa wa1 wb wb1 : World) :
  IAM.yn_prompt ("Remove role " ++ dquote ++ role ++ dquote ++ " from user "
                 ++ dquote ++ user ++ dquote ++ "? ") wa = (true, wa1) ->
  IAM.yn_prompt ("Delete user " ++ dquote ++ (user ++ "/roles/" ++ role)
                 ++ dquote ++ "? ") wb = (true, wb1) ->
  requests_during wa (snd (IAM.remove_role_from_user connection user role wa))
    = [mkRequest "DELETE" ("/iam/users/" ++ user ++ "/roles/" ++ role)] /\
  requests_during wb
    (snd (IAM.delete_user connection (user ++ "/roles/" ++ role) wb))
    = requests_during wa (snd (IAM.remove_role_from_user connection user role wa)).
Proof.
  intros Hremove Hdelete.
  destruct (run_proceeds (fun _ => None) connection (RemoveRole user role) wa wa1)
    as [b [w' [Hrun [_ Hs]]]]; [exact Hremove |].
  destruct (run_proceeds (fun _ => None) connection
              (DeleteUser (user ++ "/roles/" ++ role)) wb wb1)
    as [b2 [w2 [Hrun2 [_ Hs2]]]]; [exact Hdelete |].
  cbn [run] in Hrun, Hrun2. rewrite Hrun, Hrun2. cbn [snd].
  rewrite (requests_during_app _ _ _ Hs), (requests_during_app _ _ _ Hs2).
  split; reflexivity.
Qed.

(** X9. A listing looks at the payload only under status 205: when the
    exchange fails or the answer carries another status, what the operation
    does is the same for every decoder and every payload. *)
Theorem listing_decodes_only_on_205
    (from_cbor from_cbor' : list Byte.byte -> option json)
    (connection connection' : Connection) (op : Operation) (w : World) :
  question op = None ->
  (forall resp, coap_exchange connection (contract_request op) = Some resp ->
                status_code resp <> 205%Z) ->
  option_map status_code (coap_exchange connection (contract_request op))
    = option_map status_code (coap_exchange connection' (contract_request op)) ->
  run from_cbor connection op w = run from_cbor' connection' op w.
Proof.
  unfold contract_request. intros Hq Hcode Hsame.
  destruct op as [| | user role | user role | user]; try discriminate Hq;
    cbv beta iota delta [contract_method contract_path run] in *;
    step_op;
    match goal with
    | |- context [coap_exchange connection ?r] =>
        destruct (coap_exchange connection r) as [[code bytes] |];
        destruct (coap_exchange connection' r) as [[code' bytes'] |];
        cbn [option_map status_code] in Hsame; try discriminate Hsame
    end;
    try reflexivity;
    inversion Hsame; subst code';
    specialize (Hcode _ eq_refl); cbn [status_code] in Hcode;
    step_op; settle_codes; reflexivity.
Qed.

(** X10. A mutating operation looks at the status code of the answer and at
    nothing else: two devices whose answers to its request carry the same
    status, or both fail, lead to the same result and the same output,
    whatever the payloads. *)
Theorem mutating_operation_ignores_payload
    (from_cbor from_cbor' : list Byte.byte -> option json)
    (connection connection' : Connection) (op : Operation) (w : World) :
  question op <> None ->
  option_map status_code (coap_exchange connection (contract_request op))
    = option_map status_code (coap_exchange connection' (contract_request op)) ->
  run from_cbor connection op w = run from_cbor' connection' op w.
Proof.
  unfold contract_request. intros Hq Hsame.
  destruct op as [| | user role | user role | user];
    try (exfalso; apply Hq; reflexivity);
    cbv beta iota delta [contract_method contract_path run] in *;
    step_op;
    match goal with
    | |- context [IAM.yn_prompt ?m w] =>
        destruct (IAM.yn_prompt m w) as [[|] w1]; [| reflexivity]
    end;
    match goal with
    | |- context [coap_exchange connection ?r] =>
        destruct (coap_exchange connection r) as [[code bytes] |];
        destruct (coap_exchange connection' r) as [[code' bytes'] |];
        cbn [option_map status_code] in Hsame; try discriminate Hsame
    end;
    try reflexivity;
    inversion Hsame; subst code'; reflexivity.
Qed.

(** ** Operations one after the other *)

(** One operation adds to the requests made and to the requests sent the
    same list: nothing, or the request of the contract. *)
Lemma run_adds_at_most_one (from_cbor : list Byte.byte -> option json)
    (connection : Connection) (op : Operation) (w : World) :
  exists b w' l,
    run from_cbor connection op w = (Returned b, w') /\
    created w' = (created w ++ l)%list /\ sent w' = (sent w ++ l)%list /\
    (l = [] \/ l = [contract_request op]).
Proof.
  destruct (proceeds_or_declined op w) as [w1 [Hgo | Hno]].
  - destruct (run_proceeds from_cbor connection op w w1 Hgo) as [b [w' [Hrun [Hc Hs]]]].
    exists b, w', [contract_request op]. auto.
  - destruct (run_declined from_cbor connection op w w1 Hno) as [w' [Hrun [_ [Hc Hs]]]].
    exists true, w', []. rewrite !app_nil_r. auto.
Qed.

(** X11. However many operations are run one after the other, no exception
    leaves the sequence, every operation yields a result, and the requests
    sent are requests of the contract of these operations, in the order of
    the operations and at most one for each; every request object made is
    executed. *)
Theorem session_requests_in_order (from_cbor : list Byte.byte -> option json)
    (connection : Connection) (ops : list Operation) :
  forall w,
  exists bs w' l,
    session from_cbor connection ops w = (Returned bs, w') /\
    List.length bs = List.length ops /\
    sent w' = (sent w ++ l)%list /\ created w' = (created w ++ l)%list /\
    subsequence l (map contract_request ops).
Proof.
  induction ops as [| op ops IH]; intros w.
  - exists [], w, []. cbn [session ret map List.length]. rewrite !app_nil_r.
    repeat split; constructor.
  - destruct (run_adds_at_most_one from_cbor connection op w)
      as [b [w1 [l1 [Hrun [Hc1 [Hs1 Hl1]]]]]].
    destruct (IH w1) as [bs [w' [l [Hrest [Hlen [Hs [Hc Hsub]]]]]]].
    exists (b :: bs), w', (l1 ++ l)%list.
    cbn [session]. unfold bind at 1. rewrite Hrun.
    unfold bind at 1. rewrite Hrest. cbn [ret List.length map].
    split; [reflexivity |]. split; [congruence |].
    split; [rewrite Hs, Hs1; symmetry; apply app_assoc |].
    split; [rewrite Hc, Hc1; symmetry; apply app_assoc |].
    destruct Hl1 as [-> | ->]; cbn [app]; constructor; exact Hsub.
Qed.

(** Without a [y] on the input the prompt returns false, and there is still
    no [y] on the input it leaves. *)
Lemma yn_prompt_without_y (message : string) (w : World) :
  Forall (fun c => c <> "y"%char) (readable w) ->
  exists w1,
    IAM.yn_prompt message w = (false, w1) /\
    Forall (fun c => c <> "y"%char) (readable w1).
Proof.
  intros Hno.
  destruct (yn_loop_run message (readable w) zero w eq_refl)
    as [rejected [rest [answer' [w1 [Hsplit [Hrej [Hloop [_ [_ [_ [_ Hend]]]]]]]]]]].
  exists w1. unfold IAM.yn_prompt. rewrite Hloop.
  rewrite Hsplit in Hno. apply Forall_app in Hno. destruct Hno as [_ Hrest].
  destruct rest as [| c tl].
  - destruct Hend as [Hfail Hlast].
    assert (Hans : not_an_answer answer').
    { rewrite Hlast. apply last_Forall; [exact Hrej | split; discriminate]. }
    destruct Hans as [Hy _]. apply Ascii.eqb_neq in Hy. rewrite Hy.
    split; [reflexivity |]. unfold readable. rewrite Hfail. constructor.
  - destruct Hend as [_ [-> [_ Hr1]]].
    apply Forall_cons_iff in Hrest. destruct Hrest as [Hc Htl].
    apply Ascii.eqb_neq in Hc. rewrite Hc, Hr1. auto.
Qed.

(** X12. Nothing is changed on the device without a [y]: when the input
    holds no [y], every operation of a sequence of mutating operations is
    cancelled, returns true, and no request object is made and no request
    sent, whatever else the input holds. *)
Theorem no_y_no_request (from_cbor : list Byte.byte -> option json)
    (connection : Connection) (ops : list Operation) :
  Forall (fun op => question op <> None) ops ->
  forall w,
    Forall (fun c => c <> "y"%char) (readable w) ->
    exists w',
      session from_cbor connection ops w
        = (Returned (repeat true (List.length ops)), w') /\
      created w' = created w /\ sent w' = sent w.
Proof.
  intros Hmut. induction Hmut as [| op ops Hq Hmut IH]; intros w Hno.
  - exists w. auto.
  - destruct (question op) as [message |] eqn:Hmsg; [| contradiction Hq; reflexivity].
    destruct (yn_prompt_without_y message w Hno) as [w1 [Hyn Hno1]].
    assert (Hdecl : declined op w w1) by (unfold declined; rewrite Hmsg; exact Hyn).
    destruct (proceeds_frame op w w1 (or_intror Hdecl)) as [_ [Hc Hs]].
    pose proof (run_declined_world from_cbor connection op w w1 Hdecl) as Hrun.
    destruct (IH (put_cout endl (put_cout "Action cancelled." w1)) Hno1)
      as [w' [Hrest [Hc' Hs']]].
    exists w'. cbn [session]. unfold bind at 1. rewrite Hrun.
    unfold bind at 1. rewrite Hrest. cbn [ret List.length repeat].
    split; [reflexivity |]. cbn [created sent put_cout] in Hc', Hs'.
    split; congruence.
Qed.

(** ** Concrete runs of the further properties *)

Lemma list_roles_prints_numbered_witness :
  coap_exchange (answering 205 []) (mkRequest "GET" "/iam/roles")
    = Some (mkResponse 205 []) /\
  status_code (mkResponse 205 []) = 205%Z /\
  decodes_to (j_array [j_string "admin"; j_string "guest"]) (payload (mkResponse 205 []))
    = Some (j_array (map j_string ["admin"; "guest"])) /\
  (Z.of_nat (List.length ["admin"; "guest"]) < int_max)%Z /\
  exists w',
    IAM.list_roles (decodes_to (j_array [j_string "admin"; j_string "guest"]))
      (answering 205 []) (console EmptyString) = (Returned true, w') /\
    cout w' = "Listing available roles..." ++ endl
              ++ "[1]: admin" ++ endl
              ++ "[2]: guest" ++ endl /\
    cerr w' = EmptyString.
Proof.
  split; [reflexivity |].
  split; [reflexivity |].
  split; [reflexivity |].
  split; [vm_compute; reflexivity |].
  apply (list_roles_prints_numbered
           (decodes_to (j_array [j_string "admin"; j_string "guest"]))
           (answering 205 []) (mkResponse 205 []) ["admin"; "guest"]
           (console EmptyString)).
  - reflexivity.
  - reflexivity.
  - reflexivity.
  - vm_compute. reflexivity.
Defined.

Lemma confirmed_success_witness :
  question (DeleteUser "bob") <> None /\
  proceeds (DeleteUser "bob") (console "y")
    (after_prompt (DeleteUser "bob") (console "y")) /\
  coap_exchange (answering 202 []) (contract_request (DeleteUser "bob"))
    = Some (mkResponse 202 []) /\
  status_code (mkResponse 202 []) = success_code (DeleteUser "bob") /\
  exists w',
    run (decodes_to j_null) (answering 202 []) (DeleteUser "bob") (console "y")
      = (Returned true, w') /\
    cout w' = cout (after_prompt (DeleteUser "bob") (console "y"))
              ++ "Success." ++ endl /\
    cerr w' = EmptyString.
Proof.
  split; [discriminate |].
  split; [vm_compute; reflexivity |].
  split; [reflexivity |].
  split; [reflexivity |].
  apply (confirmed_success (decodes_to j_null) (answering 202 [])
           (DeleteUser "bob") (mkResponse 202 []) (console "y")
           (after_prompt (DeleteUser "bob") (console "y"))).
  - discriminate.
  - vm_compute. reflexivity.
  - reflexivity.
  - reflexivity.
Defined.

Lemma role_operations_explain_error_500_witness :
  status_code (mkResponse 500 []) = 500%Z /\
  (IAM.yn_prompt ("Add role " ++ dquote ++ "admin" ++ dquote ++ " to user "
                  ++ dquote ++ "bob" ++ dquote ++ "? ") (console "y")
   = (true, after_prompt (AddRole "bob" "admin") (console "y")) /\
   coap_exchange (answering 500 [])
     (mkRequest "PUT" ("/iam/users/" ++ "bob" ++ "/roles/" ++ "admin"))
   = Some (mkResponse 500 []) /\
   exists w',
     IAM.add_role_to_user (answering 500 []) "bob" "admin" (console "y")
       = (Returned false, w') /\
     cout w' = cout (after_prompt (AddRole "bob" "admin") (console "y"))
               ++ "The request returned error 500." ++ endl
               ++ "Are you sure you typed in the right role id and user id?" ++ endl /\
     cerr w' = EmptyString) /\
  (IAM.yn_prompt ("Remove role " ++ dquote ++ "admin" ++ dquote ++ " from user "
                  ++ dquote ++ "bob" ++ dquote ++ "? ") (console "y")
   = (true, after_prompt (RemoveRole "bob" "admin") (console "y")) /\
   coap_exchange (answering 500 [])
     (mkRequest "DELETE" ("/iam/users/" ++ "bob" ++ "/roles/" ++ "admin"))
   = Some (mkResponse 500 []) /\
   exists w',
     IAM.remove_role_from_user (answering 500 []) "bob" "admin" (console "y")
       = (Returned false, w') /\
     cout w' = cout (after_prompt (RemoveRole "bob" "admin") (console "y"))
               ++ "The request returned error 500." ++ endl
               ++ "Are you sure you typed in the right role id and user id?" ++ endl /\
     cerr w' = EmptyString).
Proof.
  split; [reflexivity |]. split.
  - split; [vm_compute; reflexivity |]. split; [reflexivity |].
    apply (proj1 (role_operations_explain_error_500 (answering 500 []) "bob" "admin"
                    (mkResponse 500 []) (console "y")
                    (after_prompt (AddRole "bob" "admin") (console "y")) eq_refl)).
    + vm_compute. reflexivity.
    + reflexivity.
  - split; [vm_compute; reflexivity |]. split; [reflexivity |].
    apply (proj2 (role_operations_explain_error_500 (answering 500 []) "bob" "admin"
                    (mkResponse 500 []) (console "y")
                    (after_prompt (RemoveRole "bob" "admin") (console "y")) eq_refl)).
    + vm_compute. reflexivity.
    + reflexivity.
Defined.

Lemma result_true_iff_witness :
  exists b w',
    run (decodes_to j_null) (answering 201 []) (RemoveRole "bob" "admin") (console "y")
      = (Returned b, w') /\
    (b = true <->
     (exists w1, declined (RemoveRole "bob" "admin") (console "y") w1) \/
     (exists resp,
        coap_exchange (answering 201 []) (contract_request (RemoveRole "bob" "admin"))
          = Some resp /\
        accepted (decodes_to j_null) (RemoveRole "bob" "admin") resp)).
Proof.
  exact (result_true_iff (decodes_to j_null) (answering 201 [])
           (RemoveRole "bob" "admin") (console "y")).
Defined.

Lemma unanswered_operation_is_cancelled_witness :
  question (DeleteUser "bob") = Some ("Delete user " ++ dquote ++ "bob" ++ dquote ++ "? ") /\
  Forall not_an_answer (readable (console "ok")) /\
  exists w',
    run (decodes_to j_null) (answering 202 []) (DeleteUser "bob") (console "ok")
      = (Returned true, w') /\
    cout w' = cout (console "ok")
              ++ copies (S (List.length (readable (console "ok"))))
                   (("Delete user " ++ dquote ++ "bob" ++ dquote ++ "? ") ++ " [y/n]: ")
              ++ "Action cancelled." ++ endl /\
    cin_fail w' = true /\
    created w' = [] /\ sent w' = [].
Proof.
  assert (Hno : Forall not_an_answer (readable (console "ok"))).
  { vm_compute. repeat constructor; discriminate. }
  split; [reflexivity |].
  split; [exact Hno |].
  apply (unanswered_operation_is_cancelled (decodes_to j_null) (answering 202 [])
           (DeleteUser "bob") _ (console "ok") eq_refl Hno).
Defined.

Lemma operation_reads_only_its_answer_witness :
  (question ListUsers = None /\
   exists b w',
     run (decodes_to j_null) (answering 205 []) ListUsers (console "y n")
       = (Returned b, w') /\
     cin w' = cin (console "y n") /\ cin_fail w' = false) /\
  (question (AddRole "bob" "admin")
     = Some ("Add role " ++ dquote ++ "admin" ++ dquote ++ " to user "
             ++ dquote ++ "bob" ++ dquote ++ "? ") /\
   readable (console "x n y") = (["x"%char] ++ "n"%char :: ["y"%char])%list /\
   Forall not_an_answer ["x"%char] /\
   ("n"%char = "y"%char \/ "n"%char = "n"%char) /\
   exists b w',
     run (decodes_to j_null) (answering 201 []) (AddRole "bob" "admin") (console "x n y")
       = (Returned b, w') /\
     readable w' = ["y"%char] /\ cin_fail w' = false /\
     requests_during (console "x n y") w' = []).
Proof.
  assert (Hx : Forall not_an_answer ["x"%char]).
  { repeat constructor; discriminate. }
  split.
  - split; [reflexivity |].
    apply (proj1 (operation_reads_only_its_answer (decodes_to j_null) (answering 205 [])
                    ListUsers (console "y n"))).
    reflexivity.
  - split; [reflexivity |].
    split; [vm_compute; reflexivity |].
    split; [exact Hx |].
    split; [right; reflexivity |].
    apply (proj2 (operation_reads_only_its_answer (decodes_to j_null) (answering 201 [])
                    (AddRole "bob" "admin") (console "x n y"))
             _ ["x"%char] "n"%char ["y"%char] eq_refl).
    + vm_compute. reflexivity.
    + exact Hx.
    + right. reflexivity.
Defined.

Lemma error_stream_holds_fault_lines_only_witness :
  exists b w',
    run (decodes_to j_null) unreachable (AddRole "bob" "admin") (console "y")
      = (Returned b, w') /\
    (cerr w' = cerr (console "y") \/
     (b = false /\
      cerr w' = cerr (console "y") ++ fault_line (AddRole "bob" "admin") ++ endl)) /\
    (question (AddRole "bob" "admin") <> None ->
     coap_exchange unreachable (contract_request (AddRole "bob" "admin")) <> None ->
     cerr w' = cerr (console "y")).
Proof.
  exact (error_stream_holds_fault_lines_only (decodes_to j_null) unreachable
           (AddRole "bob" "admin") (console "y")).
Defined.

Lemma delete_user_aliases_remove_role_witness :
  IAM.yn_prompt ("Remove role " ++ dquote ++ "admin" ++ dquote ++ " from user "
                 ++ dquote ++ "bob" ++ dquote ++ "? ") (console "y")
    = (true, after_prompt (RemoveRole "bob" "admin") (console "y")) /\
  IAM.yn_prompt ("Delete user " ++ dquote ++ ("bob" ++ "/roles/" ++ "admin")
                 ++ dquote ++ "? ") (console "y")
    = (true, after_prompt (DeleteUser "bob/roles/admin") (console "y")) /\
  requests_during (console "y")
    (snd (IAM.remove_role_from_user (answering 202 []) "bob" "admin" (console "y")))
    = [mkRequest "DELETE" "/iam/users/bob/roles/admin"] /\
  requests_during (console "y")
    (snd (IAM.delete_user (answering 202 []) "bob/roles/admin" (console "y")))
    = requests_during (console "y")
        (snd (IAM.remove_role_from_user (answering 202 []) "bob" "admin" (console "y"))).
Proof.
  split; [vm_compute; reflexivity |].
  split; [vm_compute; reflexivity |].
  apply (delete_user_aliases_remove_role (answering 202 []) "bob" "admin"
           (console "y") (after_prompt (RemoveRole "bob" "admin") (console "y"))
           (console "y") (after_prompt (DeleteUser "bob/roles/admin") (console "y"))).
  - vm_compute. reflexivity.
  - vm_compute. reflexivity.
Defined.

Lemma listing_decodes_only_on_205_witness :
  question ListRoles = None /\
  (forall resp, coap_exchange (answering 403 []) (contract_request ListRoles) = Some resp ->
                status_code resp <> 205%Z) /\
  option_map status_code (coap_exchange (answering 403 []) (contract_request ListRoles))
    = option_map status_code
        (coap_exchange (answering 403 [Byte.x2a]) (contract_request ListRoles)) /\
  run (decodes_to j_null) (answering 403 []) ListRoles (console EmptyString)
    = run (fun _ => None) (answering 403 [Byte.x2a]) ListRoles (console EmptyString).
Proof.
  assert (Hcode : forall resp,
             coap_exchange (answering 403 []) (contract_request ListRoles) = Some resp ->
             status_code resp <> 205%Z).
  { intros resp Hresp. inversion Hresp. simpl. lia. }
  split; [reflexivity |].
  split; [exact Hcode |].
  split; [reflexivity |].
  apply (listing_decodes_only_on_205 (decodes_to j_null) (fun _ => None)
           (answering 403 []) (answering 403 [Byte.x2a]) ListRoles
           (console EmptyString) eq_refl Hcode eq_refl).
Defined.

Lemma mutating_operation_ignores_payload_witness :
  question (AddRole "bob" "admin") <> None /\
  option_map status_code
    (coap_exchange (answering 201 []) (contract_request (AddRole "bob" "admin")))
    = option_map status_code
        (coap_exchange (answering 201 [Byte.x2a]) (contract_request (AddRole "bob" "admin"))) /\
  run (decodes_to j_null) (answering 201 []) (AddRole "bob" "admin") (console "y")
    = run (fun _ => None) (answering 201 [Byte.x2a]) (AddRole "bob" "admin") (console "y").
Proof.
  split; [discriminate |].
  split; [reflexivity |].
  apply (mutating_operation_ignores_payload (decodes_to j_null) (fun _ => None)
           (answering 201 []) (answering 201 [Byte.x2a]) (AddRole "bob" "admin")
           (console "y")).
  - discriminate.
  - reflexivity.
Defined.

Lemma session_requests_in_order_witness :
  exists bs w' l,
    session (decodes_to j_null) (answering 202 [])
      [DeleteUser "bob"; ListUsers; RemoveRole "eve" "admin"] (console "n y")
      = (Returned bs, w') /\
    List.length bs = 3%nat /\
    sent w' = (sent (console "n y") ++ l)%list /\
    created w' = (created (console "n y") ++ l)%list /\
    subsequence l
      (map contract_request [DeleteUser "bob"; ListUsers; RemoveRole "eve" "admin"]).
Proof.
  exact (session_requests_in_order (decodes_to j_null) (answering 202 [])
           [DeleteUser "bob"; ListUsers; RemoveRole "eve" "admin"] (console "n y")).
Defined.

Lemma no_y_no_request_witness :
  Forall (fun op => question op <> None) [DeleteUser "bob"; AddRole "eve" "admin"] /\
  Forall (fun c => c <> "y"%char) (readable (console "no")) /\
  exists w',
    session (decodes_to j_null) (answering 202 [])
      [DeleteUser "bob"; AddRole "eve" "admin"] (console "no")
      = (Returned [true; true], w') /\
    created w' = [] /\ sent w' = [].
Proof.
  assert (Hmut : Forall (fun op => question op <> None)
                   [DeleteUser "bob"; AddRole "eve" "admin"]).
  { repeat constructor; discriminate. }
  assert (Hno : Forall (fun c => c <> "y"%char) (readable (console "no"))).
  { vm_compute. repeat constructor; discriminate. }
  split; [exact Hmut |].
  split; [exact Hno |].
  apply (no_y_no_request (decodes_to j_null) (answering 202 [])
           [DeleteUser "bob"; AddRole "eve" "admin"] Hmut (console "no") Hno).
Defined.
